(** * gh_pr_reports: the weekly pull-request report of [main.py]

    A shallow embedding of [src/main.py] and the properties its
    specification states about it.

    The program talks to three outside parties: the hosting service
    (HTTP GET of one page of pull requests per request), the
    text-generation service and the file system.  Each of them is an
    input of the model: the hosting service is the list of the answers it
    gives, in the order the requests are made; the text-generation
    service is a function of the prompt; the file system is a set of
    directories and a finite map of regular files.  What the program
    does to them is recorded in a trace of events. *)

From Stdlib Require Import ZArith QArith Ascii String DecimalString DecimalZ Lia.
From stdpp Require Import gmap strings list.

Local Open Scope Z_scope.

(** ** Python primitives used by the program *)

Module Py.

(** The line feed, written ["\n"] in the source. *)
Definition nl : string := String (ascii_of_nat 10) EmptyString.

(** The double quote character. *)
Definition dquote : string := String (ascii_of_nat 34) EmptyString.

(** [str(n)] of a Python [int]: decimal digits, a leading [-] when
    negative, no padding. *)
Definition str_int (n : Z) : string := NilZero.string_of_int (Z.to_int n).

(** [int(s)] restricted to what [str] prints. *)
Definition int_of_str (s : string) : option Z :=
  Z.of_int <$> NilZero.int_of_string s.

(** [s.startswith(p)]. *)
Fixpoint startswith (p s : string) : bool :=
  match p, s with
  | EmptyString, _ => true
  | String a p', String b s' => if Ascii.eqb a b then startswith p' s' else false
  | String _ _, EmptyString => false
  end.

(** [s.replace(old, new)] for a non-empty [old]: the occurrences of
    [old] are replaced from left to right, without overlap.  [skip]
    counts the characters of a matched occurrence still to be dropped. *)
Fixpoint replace_from (skip : nat) (old new s : string) : string :=
  match s with
  | EmptyString => EmptyString
  | String c s' =>
      match skip with
      | S k => replace_from k old new s'
      | O =>
          if startswith old s
          then new +:+ replace_from (String.length old - 1) old new s'
          else String c (replace_from O old new s')
      end
  end.

Definition replace (old new s : string) : string := replace_from O old new s.

(** [sep.join(parts)]. *)
Fixpoint join (sep : string) (parts : list string) : string :=
  match parts with
  | [] => EmptyString
  | [p] => p
  | p :: rest => p +:+ sep +:+ join sep rest
  end.

(** [s.endswith("/")]. *)
Fixpoint ends_with_slash (s : string) : bool :=
  match s with
  | EmptyString => false
  | String c EmptyString => Ascii.eqb c "/"%char
  | String _ s' => ends_with_slash s'
  end.

(** [os.path.join(a, b)] on a POSIX system: an absolute [b] replaces
    [a]; otherwise the two are joined by one slash. *)
Definition path_join (a b : string) : string :=
  if startswith "/" b then b
  else if (String.eqb a EmptyString || ends_with_slash a)%bool then a +:+ b
  else a +:+ "/" +:+ b.

(** [timedelta(weeks=n)] in microseconds, the resolution of [datetime]. *)
Definition timedelta_weeks (n : Z) : Z := n * 7 * 24 * 3600 * 1000000.

End Py.

(** ** Text helpers for reading what the program prints *)

Module Text.

(** [s] without its prefix [p], when it starts with [p]. *)
Fixpoint strip_prefix (p s : string) : option string :=
  match p, s with
  | EmptyString, _ => Some s
  | String a p', String b s' => if Ascii.eqb a b then strip_prefix p' s' else None
  | String _ _, EmptyString => None
  end.

Definition is_nl (c : ascii) : bool := Ascii.eqb c (ascii_of_nat 10).

(** Every character of [s] satisfies [P]. *)
Fixpoint all_chars (P : ascii -> bool) (s : string) : bool :=
  match s with
  | EmptyString => true
  | String c s' => P c && all_chars P s'
  end.

(** A character [str] prints for an [int]: a digit or the minus sign. *)
Definition numeric (c : ascii) : bool :=
  let n := nat_of_ascii c in
  ((48 <=? n) && (n <=? 57) || (n =? 45))%nat.

(** [s] holds no line feed. *)
Definition single_line (s : string) : bool :=
  all_chars (fun c => negb (is_nl c)) s.

(** [s.split("\n")]: the lines of [s]. *)
Fixpoint split_lines (s : string) : list string :=
  match s with
  | EmptyString => [EmptyString]
  | String c s' =>
      if is_nl c then EmptyString :: split_lines s'
      else match split_lines s' with
           | l :: ls => String c l :: ls
           | [] => [String c EmptyString]
           end
  end.

(** [s] cut before the first [c]: what precedes it, and the rest from
    [c] on (empty when [c] does not occur). *)
Fixpoint break_at (c : ascii) (s : string) : string * string :=
  match s with
  | EmptyString => (EmptyString, EmptyString)
  | String a s' =>
      if Ascii.eqb a c then (EmptyString, s)
      else let '(l, r) := break_at c s' in (String a l, r)
  end.

End Text.

(** ** Data model *)

(** The [body] key of a page item: missing, JSON [null], or a text. *)
Inductive body_field :=
| BodyMissing
| BodyNull
| BodyText (s : string).

(** One element of the JSON array a page holds, with the keys the
    program reads.  [item_labels] is [None] when the item has no
    [labels] key; otherwise it lists the [name] of each label. *)
Record pull_item := {
  item_number : Z;
  item_title : string;
  item_state : string;
  item_created_at : string;
  item_updated_at : string;
  item_user_login : string;
  item_labels : option (list string);
  item_body : body_field
}.

(** The dictionary the fetcher builds for an item it keeps (the spec's
    PullRequestRecord).  [body] is [None] for Python's [None]. *)
Record pull_record := {
  number : Z;
  title : string;
  state : string;
  created_at : string;
  updated_at : string;
  user : string;
  labels : list string;
  body : option string
}.

(** What [response.json()] does: raise a decode error, or give the list
    of items.  The decode error is caught by one of the two handlers of
    lines 105-110, which one depends on the version of [requests]; the
    model prints the line of the second.  Both return the empty list. *)
Inductive json_result :=
| JsonError (msg : string)
| JsonPulls (pulls : list pull_item).

Record http_response := {
  status_code : Z;
  text : string;
  json : json_result
}.

(** What [requests.get] does: raise a [RequestException] (connection
    error, timeout, ...) or return a response. *)
Inductive get_result :=
| RequestException (msg : string)
| Response (r : http_response).

(** The request sent for one page.  The other query parameters are the
    constants [state=all], [sort=created], [direction=desc],
    [per_page=50]; the [Accept] header is constant too. *)
Record request := {
  url : string;
  page : Z;
  authorization : option string
}.

(** What the program does to the outside world, in order. *)
Inductive event :=
| EvPrint (line : string)
| EvGet (r : request)
| EvSleep (seconds : Q)
| EvGenerate (model prompt : string).

(** Exceptions no handler of the program catches. *)
Inductive fault :=
| ValueError
| ClientError
| GenerateError
| TypeError
| FileExistsError
| NotADirectoryError
| IsADirectoryError.

(** How a call ends: it returns, an exception escapes it, or it is
    still waiting for an answer the script of the hosting service does
    not hold. *)
Inductive outcome (A : Type) :=
| Returned (a : A)
| Raised (e : fault)
| Pending.
Arguments Returned {A} a.
Arguments Raised {A} e.
Arguments Pending {A}.

(** [emit evs r]: the events [evs] happen, then the run [r]. *)
Definition emit {A} (evs : list event) (r : list event * A) : list event * A :=
  (evs ++ r.1, r.2).

(** ** The fetcher: [get_recent_pulls_of_repo] *)

Section Fetcher.

(** [datetime.fromisoformat] followed by the comparison with the
    timezone-aware [since_time]: the instant in microseconds since the
    epoch, or [None] when either raises. *)
Variable fromisoformat : string -> option Z.
(** [datetime.isoformat] of a UTC instant. *)
Variable isoformat : Z -> string.

(** The dictionary built for a kept item (lines 81-90). *)
Definition record_of_item (pull : pull_item) : pull_record :=
  {| number := item_number pull;
     title := item_title pull;
     state := item_state pull;
     created_at := item_created_at pull;
     updated_at := item_updated_at pull;
     user := item_user_login pull;
     labels := default [] (item_labels pull);
     body := match item_body pull with
             | BodyMissing => Some EmptyString
             | BodyNull => None
             | BodyText s => Some s
             end |}.

(** [datetime.fromisoformat(pull['created_at'].replace('Z', '+00:00'))]. *)
Definition created_time (s : string) : option Z :=
  fromisoformat (Py.replace "Z" "+00:00" s).

(** The [for pull in pulls] loop (lines 75-93): [recent_pulls], or
    [None] when a timestamp that is read makes the loop raise. *)
Fixpoint scan_page (since_time : Z) (pulls : list pull_item)
  : option (list pull_record) :=
  match pulls with
  | [] => Some []
  | pull :: rest =>
      match created_time (item_created_at pull) with
      | None => None
      | Some t =>
          if since_time <=? t
          then cons (record_of_item pull) <$> scan_page since_time rest
          else Some []
      end
  end.

Section Loop.

Variable owner repo : string.
Variable GH_TOKEN : option string.
Variable since_time : Z.

Definition base_url : string :=
  "https://api.github.com/repos/" +:+ owner +:+ "/" +:+ repo +:+ "/pulls".

Definition since_iso : string :=
  Py.replace "+00:00" "Z" (isoformat since_time).

Definition request_of_page (p : Z) : request :=
  {| url := base_url;
     page := p;
     authorization := (fun t => "token " +:+ t) <$> GH_TOKEN |}.

(** The [while True] loop (lines 47-103) with its [try] (lines
    105-110): one answer of the hosting service is consumed per
    iteration.  The state is [params['page']], [retries] and
    [all_pulls]. *)
Fixpoint fetch_loop (script : list get_result)
    (page_no retries : Z) (all_pulls : list pull_record)
  : list event * outcome (list pull_record) :=
  emit [EvPrint ("Fetching page " +:+ Py.str_int page_no +:+ "...");
        EvGet (request_of_page page_no)]
  match script with
  | [] => ([], Pending)
  | RequestException e :: _ =>
      ([EvPrint ("Request error: " +:+ e)], Returned [])
  | Response response :: script' =>
      if negb (status_code response =? 200) then
        emit [EvPrint ("Request failed, status code: "
                       +:+ Py.str_int (status_code response));
              EvPrint ("Error message: " +:+ text response)]
        (let retries := retries - 1 in
         if 0 <? retries then
           emit [EvPrint ("Retrying... (" +:+ Py.str_int retries
                          +:+ " attempts left)");
                 EvSleep 5]
             (fetch_loop script' page_no retries all_pulls)
         else
           ([EvPrint "Max retries reached. Exiting."], Returned all_pulls))
      else
        match json response with
        | JsonError e =>
            ([EvPrint ("JSON parsing error: " +:+ e)], Returned [])
        | JsonPulls [] =>
            ([EvPrint "No more data"], Returned all_pulls)
        | JsonPulls pulls =>
            emit [EvPrint ("Fetched " +:+ Py.str_int (Z.of_nat (length pulls))
                           +:+ " pull requests on page "
                           +:+ Py.str_int page_no)]
            match scan_page since_time pulls with
            | None => ([], Raised ValueError)
            | Some recent_pulls =>
                emit [EvPrint ("  -> "
                               +:+ Py.str_int (Z.of_nat (length recent_pulls))
                               +:+ " pull requests created since "
                               +:+ since_iso)]
                (let all_pulls := all_pulls ++ recent_pulls in
                 if (length recent_pulls <? length pulls)%nat then
                   ([], Returned all_pulls)
                 else
                   emit [EvSleep (8 + inject_Z (Z.of_nat (length all_pulls)) / 100)]
                     (fetch_loop script' (page_no + 1) 5 all_pulls))
            end
        end
  end.

End Loop.

(** [get_recent_pulls_of_repo(owner, repo)]: [GH_TOKEN] is the
    environment variable, [now_utc] the one reading of the clock in
    line 19, [script] the answers of the hosting service. *)
Definition get_recent_pulls_of_repo (owner repo : string)
    (GH_TOKEN : option string) (now_utc : Z) (script : list get_result)
  : list event * outcome (list pull_record) :=
  emit (match GH_TOKEN with
        | None => [EvPrint "Warning: GH_TOKEN environment variable is not set. You may hit rate limits."]
        | Some _ => []
        end)
    (let since_time := now_utc - Py.timedelta_weeks 1 in
     fetch_loop owner repo GH_TOKEN since_time script 1 5 []).

End Fetcher.

(** ** The digest: [get_pulls_summary_as_string] *)

(** [', '.join(labels) if labels else 'None']. *)
Definition labels_text (ls : list string) : string :=
  match ls with
  | [] => "None"
  | _ => Py.join ", " ls
  end.

(** [f"{pull['body']}"]: [None] prints as [None]. *)
Definition body_text (b : option string) : string := default "None" b.

(** The six lines appended for the [i]-th pull request (lines 122-127). *)
Definition entry_lines (i : Z) (pull : pull_record) : list string :=
  [ Py.str_int i +:+ ". PR #" +:+ Py.str_int (number pull) +:+ ": " +:+ title pull;
    "   Author: " +:+ user pull;
    "   Created at: " +:+ created_at pull;
    "   Labels: " +:+ labels_text (labels pull);
    "   Description: " +:+ body_text (body pull) +:+ "...";
    Py.nl +:+ Py.nl ].

(** The body of [for i, pull in enumerate(pulls, 1)], started at [i]. *)
Fixpoint entries_from (i : Z) (pulls : list pull_record) : list string :=
  match pulls with
  | [] => []
  | pull :: rest => entry_lines i pull ++ entries_from (i + 1) rest
  end.

Definition summary_lines (pulls : list pull_record) : list string :=
  (Py.nl +:+ "There are " +:+ Py.str_int (Z.of_nat (length pulls))
         +:+ " pull requests recently:")
  :: entries_from 1 pulls.

Definition get_pulls_summary_as_string (pulls : list pull_record) : string :=
  Py.join Py.nl (summary_lines pulls).

(** ** The text-generation call: [summarize_prs_by_ai] *)

(** The text-generation service: whether [genai.Client()] can be built,
    and what [generate_content] answers for a model and a prompt:
    [None] when it raises, otherwise the [text] of the response, which
    is [None] for a response that holds no text. *)
Record ai_service := {
  client_ok : bool;
  generate_content : string -> string -> option (option string)
}.

Definition ai_model : string := "gemini-3-flash-preview".

(** The prompt of lines 139-153. *)
Definition ai_prompt (pr_summary_string owner repo : string) : string :=
  Py.nl
  +:+ "Act as a Senior AI Software Architect. Analyze the following list of Pull Requests from "
  +:+ owner +:+ "/" +:+ repo
  +:+ " and provide a high-signal technical digest for a team of framework developers. Be Professional, technical and objective. Keep concise. Skip the "
  +:+ Py.dquote +:+ "Here is your report" +:+ Py.dquote +:+ " intro." +:+ Py.nl
  +:+ Py.nl
  +:+ "Start the report with a key takeaways: A one-sentence summary of the most impactful trend this week, with total number of PRs and top active areas. Then summarize these PRs by their categories (features, components, hardware backends, etc.)" +:+ Py.nl
  +:+ Py.nl
  +:+ "**Formatting Instructions:**" +:+ Py.nl
  +:+ "- Use concise bullet points." +:+ Py.nl
  +:+ "- Use backticks for code symbols (e.g., `DTensor`)." +:+ Py.nl
  +:+ "- Give number and link for mentioned PRs (e.g., [PR#1234](URL))" +:+ Py.nl
  +:+ Py.nl
  +:+ "**Input Data:**" +:+ Py.nl
  +:+ pr_summary_string +:+ Py.nl.

Definition summarize_prs_by_ai (svc : ai_service)
    (pr_summary_string owner repo : string)
  : list event * outcome (option string) :=
  if client_ok svc then
    let prompt := ai_prompt pr_summary_string owner repo in
    emit [EvPrint "Sending PR summary to AI model for analysis...";
          EvGenerate ai_model prompt]
      match generate_content svc ai_model prompt with
      | Some response_text => ([], Returned response_text)
      | None => ([], Raised GenerateError)
      end
  else ([], Raised ClientError).

(** ** The program: the [__main__] block *)

(** The file system: the directories and the regular files with their
    content, each known by the text of its path.  Of the faults of the
    operating system the model has those of a path in use as the other
    kind: a regular file where a directory is to be made, a directory
    where the report is to be written.  Permissions and a full disk are
    outside the model. *)
Record filesystem := {
  dirs : gset string;
  files : gmap string string
}.

(** [path] is a regular file. *)
Definition is_file (fs : filesystem) (path : string) : bool :=
  match files fs !! path with
  | Some _ => true
  | None => false
  end.

(** The directories on the way to [prefix ++ rest], [prefix] being read
    already: every non-empty part that ends before a slash, and the
    whole path.  A doubled or a final slash gives a directory a second
    name; names are kept as texts. *)
Fixpoint dir_chain_from (prefix rest : string) : list string :=
  match rest with
  | EmptyString => [prefix]
  | String c rest' =>
      let next := prefix +:+ String c EmptyString in
      if Ascii.eqb c "/" && negb (String.eqb prefix EmptyString)
      then prefix :: dir_chain_from next rest'
      else dir_chain_from next rest'
  end.

Definition dir_chain (path : string) : list string :=
  dir_chain_from EmptyString path.

(** [os.makedirs(path, exist_ok=True)]: the directories on the way and
    [path] itself are made where they are missing; it raises
    ([None]) when one of them is a regular file.  Nothing is made before
    it raises: what lies above a file exists already. *)
Definition makedirs (path : string) (fs : filesystem) : option filesystem :=
  if existsb (is_file fs) (dir_chain path) then None
  else Some {| dirs := list_to_set (dir_chain path) ∪ dirs fs;
               files := files fs |}.

(** The exception of a [makedirs] that raises: [NotADirectoryError]
    when a regular file is on the way to [path], [FileExistsError] when
    [path] itself is one ([exist_ok] lets an existing directory pass, not
    a file). *)
Definition makedirs_fault (path : string) (fs : filesystem) : fault :=
  if existsb (is_file fs) (removelast (dir_chain path))
  then NotADirectoryError
  else FileExistsError.

(** The file system with the directories on the way to [path] and
    [path] itself: what a [makedirs] that does not raise leaves. *)
Definition with_dirs (path : string) (fs : filesystem) : filesystem :=
  {| dirs := list_to_set (dir_chain path) ∪ dirs fs; files := files fs |}.

(** The file system with the file [path] holding [content]: what
    opening it for writing and writing [content] in pieces leaves. *)
Definition write_file (path content : string) (fs : filesystem) : filesystem :=
  {| dirs := dirs fs; files := <[ path := content ]> (files fs) |}.

(** [open(path, "w")]: the file is created, or emptied when it exists;
    it raises ([None]) when [path] is a directory.  The directory of the
    file exists, having just been made. *)
Definition open_for_writing (path : string) (fs : filesystem)
  : option filesystem :=
  if bool_decide (path ∈ dirs fs) then None
  else Some {| dirs := dirs fs;
               files := <[ path := EmptyString ]> (files fs) |}.

(** [f.write(data)] on the file opened at [path]; what is written is on
    the disk when the [with] block is left, also by an exception. *)
Definition file_write (path data : string) (fs : filesystem) : filesystem :=
  {| dirs := dirs fs;
     files := <[ path := default EmptyString (files fs !! path) +:+ data ]>
                (files fs) |}.

(** Everything a run depends on. *)
Record world := {
  argv : list string;            (* sys.argv, the script name first *)
  env_GH_TOKEN : option string;  (* os.getenv("GH_TOKEN") *)
  clock_utc : Z;                 (* datetime.now(timezone.utc), line 19 *)
  clock_local_1 : Z;             (* datetime.now(), line 187 *)
  clock_local_2 : Z;             (* datetime.now(), line 188 *)
  github : list get_result;      (* the answers to the page requests *)
  genai : ai_service;
  disk : filesystem
}.

(** How the process ends. *)
Inductive status :=
| Exit (code : Z)      (* sys.exit(code) *)
| Finished             (* the end of the script is reached *)
| Crashed (e : fault)  (* an exception nobody catches *)
| Waiting.             (* blocked on a request without answer *)

Record run := {
  run_trace : list event;
  run_status : status;
  run_disk : filesystem
}.

(** The exit status of the process, when it ends. *)
Definition exit_code (s : status) : option Z :=
  match s with
  | Exit c => Some c
  | Finished => Some 0
  | Crashed _ => Some 1
  | Waiting => None
  end.

(** Lines 162-167. *)
Definition parse_args (argv : list string) : string * string :=
  if (3 <=? length argv)%nat
  then (default EmptyString (argv !! 1%nat), default EmptyString (argv !! 2%nat))
  else ("pytorch", "pytorch").

(** The same world with other command-line arguments. *)
Definition with_argv (args : list string) (w : world) : world :=
  {| argv := args;
     env_GH_TOKEN := env_GH_TOKEN w;
     clock_utc := clock_utc w;
     clock_local_1 := clock_local_1 w;
     clock_local_2 := clock_local_2 w;
     github := github w;
     genai := genai w;
     disk := disk w |}.

Section Main.

Variable fromisoformat : string -> option Z.
Variable isoformat : Z -> string.
(** [strftime("%Y%m%d")] of a local instant. *)
Variable strftime_Ymd : Z -> string.

(** Lines 184-189: where the report goes. *)
Definition report_dir (owner repo : string) : string :=
  Py.path_join "reports" (owner +:+ "_" +:+ repo).

Definition report_path (owner repo : string) (w : world) : string :=
  Py.path_join (report_dir owner repo)
    ("report-" +:+ strftime_Ymd (clock_local_1 w) +:+ ".md").

(** Line 191: the header line and the empty line after it. *)
Definition report_header (owner repo : string) (w : world) : string :=
  "# AI Analysis of Pull Requests for " +:+ owner +:+ "/" +:+ repo
  +:+ " during "
  +:+ strftime_Ymd (clock_local_2 w - Py.timedelta_weeks 1)
  +:+ "-" +:+ strftime_Ymd (clock_local_1 w) +:+ Py.nl +:+ Py.nl.

Definition report_content (owner repo ai_analysis : string) (w : world) : string :=
  report_header owner repo w +:+ ai_analysis +:+ Py.nl.

(** Lines 184-193: the directories, then the file.  The result is the
    file system left and the exception that ended the step, if any:
    [f.write(ai_analysis)] raises when the response held no text, after
    the header was written. *)
Definition save_report (owner repo : string) (ai_analysis : option string)
    (w : world) : filesystem * option fault :=
  match makedirs "reports" (disk w) with
  | None => (disk w, Some (makedirs_fault "reports" (disk w)))
  | Some fs1 =>
      match makedirs (report_dir owner repo) fs1 with
      | None => (fs1, Some (makedirs_fault (report_dir owner repo) fs1))
      | Some fs2 =>
          let path := report_path owner repo w in
          match open_for_writing path fs2 with
          | None => (fs2, Some IsADirectoryError)
          | Some fs3 =>
              let fs4 := file_write path (report_header owner repo w) fs3 in
              match ai_analysis with
              | None => (fs4, Some TypeError)
              | Some text =>
                  (file_write path Py.nl (file_write path text fs4), None)
              end
          end
      end
  end.

Definition main (w : world) : run :=
  let '(owner, repo) := parse_args (argv w) in
  let '(t1, fetched) :=
    get_recent_pulls_of_repo fromisoformat isoformat owner repo
      (env_GH_TOKEN w) (clock_utc w) (github w) in
  match fetched with
  | Pending => {| run_trace := t1; run_status := Waiting; run_disk := disk w |}
  | Raised e => {| run_trace := t1; run_status := Crashed e; run_disk := disk w |}
  | Returned [] =>
      {| run_trace := t1 ++ [EvPrint "No recent pull requests found."];
         run_status := Exit 0;
         run_disk := disk w |}
  | Returned recent_pulls =>
      let t2 := t1 ++ [EvPrint ("Number of recent pulls: "
                                +:+ Py.str_int (Z.of_nat (length recent_pulls)))] in
      let summary_string := get_pulls_summary_as_string recent_pulls in
      let '(t3, analysed) := summarize_prs_by_ai (genai w) summary_string owner repo in
      match analysed with
      | Pending => {| run_trace := t2 ++ t3; run_status := Waiting; run_disk := disk w |}
      | Raised e => {| run_trace := t2 ++ t3; run_status := Crashed e; run_disk := disk w |}
      | Returned ai_analysis =>
          let t4 := t2 ++ t3
                    ++ [EvPrint "AI Analysis of Recent Pull Requests:";
                        EvPrint (default "None" ai_analysis)] in
          match save_report owner repo ai_analysis w with
          | (fs, Some e) =>
              {| run_trace := t4; run_status := Crashed e; run_disk := fs |}
          | (fs, None) =>
              {| run_trace := t4 ++ [EvPrint ("Report saved to "
                                              +:+ report_path owner repo w)];
                 run_status := Finished;
                 run_disk := fs |}
          end
      end
  end.

End Main.

(** ** A concrete clock

    The calendar functions of Python's [datetime] for the one text form
    the hosting service sends ([YYYY-MM-DDTHH:MM:SSZ]) and for years of
    four digits.  The theorems below hold for any calendar functions;
    these are used to run the program on concrete inputs. *)

Module Clock.

(** Days since 1970-01-01 of a date of the proleptic Gregorian calendar. *)
Definition days_from_civil (y m d : Z) : Z :=
  let y' := if m <=? 2 then y - 1 else y in
  let era := y' / 400 in
  let yoe := y' - era * 400 in
  let doy := (153 * (if 2 <? m then m - 3 else m + 9) + 2) / 5 + d - 1 in
  let doe := yoe * 365 + yoe / 4 - yoe / 100 + doy in
  era * 146097 + doe - 719468.

(** The date of a day number: year, month, day. *)
Definition civil_from_days (z : Z) : Z * Z * Z :=
  let z := z + 719468 in
  let era := z / 146097 in
  let doe := z - era * 146097 in
  let yoe := (doe - doe / 1460 + doe / 36524 - doe / 146096) / 365 in
  let doy := doe - (365 * yoe + yoe / 4 - yoe / 100) in
  let mp := (5 * doy + 2) / 153 in
  let d := doy - (153 * mp + 2) / 5 + 1 in
  let m := if mp <? 10 then mp + 3 else mp - 9 in
  (if m <=? 2 then yoe + era * 400 + 1 else yoe + era * 400, m, d).

Definition digit_val (c : ascii) : option Z :=
  let n := nat_of_ascii c in
  if ((48 <=? n) && (n <=? 57))%nat then Some (Z.of_nat (n - 48)) else None.

(** Read exactly [k] decimal digits. *)
Fixpoint read_digits (k : nat) (acc : Z) (s : string) : option (Z * string) :=
  match k, s with
  | O, _ => Some (acc, s)
  | S k', String c s' =>
      match digit_val c with
      | Some d => read_digits k' (10 * acc + d) s'
      | None => None
      end
  | S _, EmptyString => None
  end.

(** Read the literal [p]. *)
Definition expect (p s : string) : option string := Text.strip_prefix p s.

Definition in_range (lo x hi : Z) : bool := (lo <=? x) && (x <=? hi).

(** [fromisoformat] of [YYYY-MM-DDTHH:MM:SS+00:00], in microseconds. *)
Definition fromisoformat (s : string) : option Z :=
  '(y, s) ← read_digits 4 0 s;
  s ← expect "-" s;
  '(m, s) ← read_digits 2 0 s;
  s ← expect "-" s;
  '(d, s) ← read_digits 2 0 s;
  s ← expect "T" s;
  '(hh, s) ← read_digits 2 0 s;
  s ← expect ":" s;
  '(mm, s) ← read_digits 2 0 s;
  s ← expect ":" s;
  '(ss, s) ← read_digits 2 0 s;
  s ← expect "+00:00" s;
  if String.eqb s EmptyString
     && in_range 1 m 12 && in_range 1 d 31
     && in_range 0 hh 23 && in_range 0 mm 59 && in_range 0 ss 59
  then Some ((((days_from_civil y m d * 24 + hh) * 60 + mm) * 60 + ss) * 1000000)
  else None.

(** [n] in decimal, padded with zeros to [width] characters. *)
Definition pad (width : nat) (n : Z) : string :=
  let s := Py.str_int n in
  String.string_of_list_ascii (replicate (width - String.length s) "0"%char) +:+ s.

Definition strftime_Ymd (t : Z) : string :=
  let '(y, m, d) := civil_from_days (t / 1000000 / 86400) in
  pad 4 y +:+ pad 2 m +:+ pad 2 d.

Definition isoformat (t : Z) : string :=
  let secs := t / 1000000 in
  let micro := t mod 1000000 in
  let '(y, m, d) := civil_from_days (secs / 86400) in
  let sod := secs mod 86400 in
  pad 4 y +:+ "-" +:+ pad 2 m +:+ "-" +:+ pad 2 d +:+ "T"
  +:+ pad 2 (sod / 3600) +:+ ":" +:+ pad 2 (sod / 60 mod 60) +:+ ":" +:+ pad 2 (sod mod 60)
  +:+ (if micro =? 0 then EmptyString else "." +:+ pad 6 micro)
  +:+ "+00:00".

End Clock.

(** ** Observations on traces and pages *)

(** The page numbers of the requests sent, in order. *)
Definition requested_pages (t : list event) : list Z :=
  omap (fun e => match e with EvGet r => Some (page r) | _ => None end) t.

(** The pauses made, in order. *)
Definition sleeps (t : list event) : list Q :=
  omap (fun e => match e with EvSleep d => Some d | _ => None end) t.

(** A response with a status other than 200. *)
Definition failed (g : get_result) : bool :=
  match g with
  | Response r => negb (status_code r =? 200)
  | RequestException _ => false
  end.

(** A list of instants in descending order (ties allowed). *)
Fixpoint descending (ts : list Z) : bool :=
  match ts with
  | a :: (b :: _) as rest => (b <=? a) && descending rest
  | _ => true
  end.

(** The fields of a record the digest prints hold no line feed. *)
Definition single_line_record (p : pull_record) : bool :=
  Text.single_line (title p) && Text.single_line (user p)
  && Text.single_line (created_at p)
  && forallb Text.single_line (labels p)
  && Text.single_line (body_text (body p)).

(** An answer that ends the fetch with an empty result: a transport
    error, or a 200 response whose body does not decode. *)
Definition aborting (g : get_result) : bool :=
  match g with
  | RequestException _ => true
  | Response r =>
      (status_code r =? 200)
      && match json r with JsonError _ => true | JsonPulls _ => false end
  end.

(** The creation time of an entry is read, and is not before [since]. *)
Definition in_window (fromisoformat : string -> option Z) (since : Z)
    (created : string) : bool :=
  match created_time fromisoformat created with
  | Some t => since <=? t
  | None => false
  end.

(** The creation time of an entry is read, and is before [since]. *)
Definition out_of_window (fromisoformat : string -> option Z) (since : Z)
    (created : string) : bool :=
  match created_time fromisoformat created with
  | Some t => t <? since
  | None => false
  end.

(** The creation times of the entries of a page, when all are read. *)
Definition page_times (fromisoformat : string -> option Z)
    (pulls : list pull_item) : option (list Z) :=
  mapM (fun pull => created_time fromisoformat (item_created_at pull)) pulls.

(** ** Re-scanning the digest

    A reader of the text [get_pulls_summary_as_string] produces.  It
    takes the text line by line, reads the count from the second line,
    and for each entry in turn looks for the line that opens it (the
    number of the entry followed by [. PR #]), then reads the number and
    the title of the pull request from that line and the author from the
    next. *)

Module Rescan.

Definition key : Type := Z * string * string.

Definition key_of (p : pull_record) : key := (number p, title p, user p).

(** How the first line of the [i]-th entry begins. *)
Definition entry_prefix (i : Z) : string := Py.str_int i +:+ ". PR #".

Definition opens_entry (i : Z) (line : string) : bool :=
  Py.startswith (entry_prefix i) line.

(** The first two lines of the [i]-th entry. *)
Definition rescan_entry (i : Z) (l1 l2 : string) : option key :=
  rest ← Text.strip_prefix (entry_prefix i) l1;
  n ← Py.int_of_str (Text.break_at ":" rest).1;
  t ← Text.strip_prefix ": " (Text.break_at ":" rest).2;
  u ← Text.strip_prefix "   Author: " l2;
  Some (n, t, u).

(** The lines from the one that opens entry [i] on. *)
Fixpoint skip_to (i : Z) (lines : list string) : list string :=
  match lines with
  | [] => []
  | l :: rest => if opens_entry i l then lines else skip_to i rest
  end.

(** [n] entries, numbered from [i]. *)
Fixpoint rescan_entries (n : nat) (i : Z) (lines : list string)
  : option (list key) :=
  match n with
  | O => Some []
  | S n' =>
      match skip_to i lines with
      | l1 :: l2 :: rest =>
          k ← rescan_entry i l1 l2;
          ks ← rescan_entries n' (i + 1) rest;
          Some (k :: ks)
      | _ => None
      end
  end.

(** The count in the line [There are <n> pull requests recently:]. *)
Definition rescan_count (header : string) : option nat :=
  rest ← Text.strip_prefix "There are " header;
  n ← Py.int_of_str (Text.break_at " " rest).1;
  Some (Z.to_nat n).

(** The text starts with an empty line and the line of the count. *)
Definition rescan (digest : string) : option (list key) :=
  match Text.split_lines digest with
  | _ :: header :: lines =>
      n ← rescan_count header;
      rescan_entries n 1 lines
  | _ => None
  end.

(** The lines of the text that follow the first two lines of an entry
    and come from its creation time, labels and description. *)
Definition field_lines (p : pull_record) : list string :=
  concat (Text.split_lines <$>
            [ "   Created at: " +:+ created_at p;
              "   Labels: " +:+ labels_text (labels p);
              "   Description: " +:+ body_text (body p) +:+ "..." ]).

(** The entry numbered [i] can be told from the next: its title and
    author are single lines, and none of its other lines begins the way
    the entry numbered [i + 1] does. *)
Definition framed (i : Z) (p : pull_record) : bool :=
  Text.single_line (title p) && Text.single_line (user p)
  && forallb (fun l => negb (opens_entry (i + 1) l)) (field_lines p).

Fixpoint all_framed (i : Z) (pulls : list pull_record) : bool :=
  match pulls with
  | [] => true
  | p :: rest => framed i p && all_framed (i + 1) rest
  end.

End Rescan.

(** The first two events of every iteration of the fetch loop. *)
Definition asking (owner repo : string) (GH_TOKEN : option string) (p : Z)
  : list event :=
  [EvPrint ("Fetching page " +:+ Py.str_int p +:+ "...");
   EvGet (request_of_page owner repo GH_TOKEN p)].

(** The events of an iteration whose page is scanned without fault, up
    to the line that reports how many entries were kept. *)
Definition page_events (isoformat : Z -> string) (owner repo : string)
    (GH_TOKEN : option string) (since_time p : Z) (pulls : list pull_item)
    (recent_pulls : list pull_record) : list event :=
  asking owner repo GH_TOKEN p ++
  [EvPrint ("Fetched " +:+ Py.str_int (Z.of_nat (length pulls))
            +:+ " pull requests on page " +:+ Py.str_int p);
   EvPrint ("  -> " +:+ Py.str_int (Z.of_nat (length recent_pulls))
            +:+ " pull requests created since "
            +:+ since_iso isoformat since_time)].

(** ** Concrete scenarios *)

Module Scenario.

(** 2026-11-03T20:10:05Z, in microseconds. *)
Definition now : Z := 1793736605000000.

Definition item (n : Z) (t created : string) (b : body_field) : pull_item :=
  {| item_number := n; item_title := t; item_state := "open";
     item_created_at := created; item_updated_at := created;
     item_user_login := "alice"; item_labels := Some ["bug"];
     item_body := b |}.

Definition fresh : pull_item :=
  item 103 "Add cache" "2026-11-03T10:00:00Z" (BodyText "Adds a cache.").
Definition recent : pull_item :=
  item 102 "Fix typo" "2026-10-30T08:30:00Z" BodyMissing.
Definition nobody : pull_item :=
  item 101 "Bump version" "2026-10-29T08:30:00Z" BodyNull.
Definition old : pull_item :=
  item 100 "Old work" "2026-10-01T10:00:00Z" (BodyText "Long ago.").
Definition unreadable : pull_item :=
  item 99 "Broken" "yesterday" BodyMissing.

Definition ok (pulls : list pull_item) : get_result :=
  Response {| status_code := 200; text := "[...]"; json := JsonPulls pulls |}.
Definition busy : get_result :=
  Response {| status_code := 503; text := "busy"; json := JsonError "no JSON" |}.
Definition garbled : get_result :=
  Response {| status_code := 200; text := "<html>"; json := JsonError "Expecting value" |}.
Definition unreachable : get_result := RequestException "connection refused".

Definition fetch (script : list get_result)
  : list event * outcome (list pull_record) :=
  get_recent_pulls_of_repo Clock.fromisoformat Clock.isoformat
    "acme" "widget" None now script.

Definition plain (n : Z) (t u d : string) : pull_record :=
  {| number := n; title := t; state := "open";
     created_at := "2026-11-03T10:00:00Z"; updated_at := "2026-11-03T10:00:00Z";
     user := u; labels := []; body := Some d |}.

(** A record with the given labels. *)
Definition labelled (ls : list string) : pull_record :=
  {| number := 7; title := "Seventh"; state := "open";
     created_at := "2026-11-03T10:00:00Z"; updated_at := "2026-11-03T10:00:00Z";
     user := "bob"; labels := ls; body := Some "y" |}.

(** A description that ends like an entry and goes on like the next
    entry, here for the pull request [n] by [u]. *)
Definition forged (d : string) (n : Z) (t u d' : string) : string :=
  d +:+ "..." +:+ Py.nl +:+ Py.nl +:+ Py.nl +:+ Py.nl
  +:+ "2. PR #" +:+ Py.str_int n +:+ ": " +:+ t +:+ Py.nl
  +:+ "   Author: " +:+ u +:+ Py.nl
  +:+ "   Created at: 2026-11-03T10:00:00Z" +:+ Py.nl
  +:+ "   Labels: None" +:+ Py.nl
  +:+ "   Description: " +:+ d'.

(** Two lists of two records each, with different second records. *)
Definition forged_a : list pull_record :=
  [ plain 1 "First" "alice" (forged "x" 7 "Seventh" "bob" "y");
    plain 8 "Eighth" "carol" "z" ].
Definition forged_b : list pull_record :=
  [ plain 1 "First" "alice" "x";
    plain 7 "Seventh" "bob" (forged "y" 8 "Eighth" "carol" "z") ].

(** A text-generation service that answers every prompt alike. *)
Definition service (answer : string) : ai_service :=
  {| client_ok := true; generate_content := fun _ _ => Some (Some answer) |}.

(** A disk that holds a report of the same day already. *)
Definition used_disk : filesystem :=
  {| dirs := {[ "reports"; "reports/acme_widget" ]};
     files := {[ "reports/acme_widget/report-20261103.md" := "stale" ]} |}.

(** A run for acme/widget at 21:10:05 local time, one hour ahead of
    UTC, with the given answers of the hosting service. *)
Definition world_of (args : list string) (script : list get_result) : world :=
  {| argv := args;
     env_GH_TOKEN := None;
     clock_utc := now;
     clock_local_1 := now + 3600 * 1000000 + 600 * 1000000;
     clock_local_2 := now + 3600 * 1000000 + 600 * 1000000 + 25;
     github := script;
     genai := service "- 3 PRs; caching is the main theme.";
     disk := used_disk |}.

(** The same run on a machine whose local clock is nine hours ahead of
    UTC: there it is 05:10:05 on 4 November. *)
Definition world_east (args : list string) (script : list get_result) : world :=
  {| argv := args;
     env_GH_TOKEN := None;
     clock_utc := now;
     clock_local_1 := now + 9 * 3600 * 1000000;
     clock_local_2 := now + 9 * 3600 * 1000000 + 25;
     github := script;
     genai := service "- 3 PRs; caching is the main theme.";
     disk := used_disk |}.

Definition run_main (w : world) : run :=
  main Clock.fromisoformat Clock.isoformat Clock.strftime_Ymd w.

End Scenario.

(** ** Further observations *)

(** The entries an answer delivers: those of a 200 answer whose body
    decodes, none otherwise. *)
Definition page_of (g : get_result) : list pull_item :=
  match g with
  | Response r =>
      if status_code r =? 200
      then match json r with JsonPulls pulls => pulls | JsonError _ => [] end
      else []
  | RequestException _ => []
  end.

(** The entries of all the pages a script holds, in order. *)
Definition pages_of (script : list get_result) : list pull_item :=
  concat (page_of <$> script).

(** Page numbers that never go down and never skip a page. *)
Fixpoint climbs (pages : list Z) : bool :=
  match pages with
  | a :: (b :: _) as rest => ((b =? a) || (b =? a + 1)) && climbs rest
  | _ => true
  end.

(** No request follows another without a pause in between; [ready]
    tells whether a request may come next. *)
Fixpoint paced (ready : bool) (t : list event) : bool :=
  match t with
  | [] => true
  | EvGet _ :: t' => ready && paced false t'
  | EvSleep _ :: t' => paced true t'
  | _ :: t' => paced ready t'
  end.

(** How often the text-generation service is called. *)
Definition generate_calls (t : list event) : nat :=
  length (omap (fun e => match e with
                         | EvGenerate m q => Some (m, q)
                         | _ => None
                         end) t).

(** What the fetch loop may do to the outside world: print, pause, and
    send requests for the one address with the one credential; never a
    call of the text-generation service. *)
Definition fetch_event (owner repo : string) (GH_TOKEN : option string)
    (e : event) : Prop :=
  match e with
  | EvGet q => q = request_of_page owner repo GH_TOKEN (page q)
  | EvGenerate _ _ => False
  | _ => True
  end.

(** [s[k:]]: the text without its first [k] characters. *)
Fixpoint text_drop (k : nat) (s : string) : string :=
  match k, s with
  | O, _ => s
  | S k', String _ s' => text_drop k' s'
  | S _, EmptyString => EmptyString
  end.

(** The text holds no letter Z. *)
Definition no_zulu (s : string) : bool :=
  Text.all_chars (fun c => negb (Ascii.eqb c "Z")) s.

(** The same world with another file system. *)
Definition with_disk (fs : filesystem) (w : world) : world :=
  {| argv := argv w;
     env_GH_TOKEN := env_GH_TOKEN w;
     clock_utc := clock_utc w;
     clock_local_1 := clock_local_1 w;
     clock_local_2 := clock_local_2 w;
     github := github w;
     genai := genai w;
     disk := fs |}.

(** The answer [g] is a 200 response whose body is the page [pulls]. *)
Definition delivers (g : get_result) (pulls : list pull_item) : Prop :=
  exists r, g = Response r /\ status_code r = 200 /\ json r = JsonPulls pulls.

(** The answers of a hosting service that holds [entries] and serves
    them [per_page] at a time: each page may come after fewer than five
    failed answers, and an empty page follows the last entries. *)
Inductive serves (per_page : nat) : list pull_item -> list get_result -> Prop :=
| serves_end (fails : list get_result) (last : get_result) (more : list get_result) :
    Forall (fun g => failed g = true) fails -> (length fails < 5)%nat ->
    delivers last [] ->
    serves per_page [] (fails ++ last :: more)
| serves_page (entries : list pull_item) (fails : list get_result)
    (g : get_result) (script : list get_result) :
    entries <> [] ->
    Forall (fun g => failed g = true) fails -> (length fails < 5)%nat ->
    delivers g (take per_page entries) ->
    serves per_page (drop per_page entries) script ->
    serves per_page entries (fails ++ g :: script).

(** * Properties *)

(** ** Equations of the fetch loop *)

Lemma emit_app {A} (e1 e2 : list event) (r : list event * A) :
  emit (e1 ++ e2) r = emit e1 (emit e2 r).
Proof. unfold emit; simpl. by rewrite app_assoc. Qed.

Lemma emit_result {A} (e : list event) (r : list event * A) : (emit e r).2 = r.2.
Proof. reflexivity. Qed.

Lemma emit_trace {A} (e : list event) (r : list event * A) :
  (emit e r).1 = e ++ r.1.
Proof. reflexivity. Qed.

Lemma requested_pages_app (t1 t2 : list event) :
  requested_pages (t1 ++ t2) = requested_pages t1 ++ requested_pages t2.
Proof. apply omap_app. Qed.

Lemma sleeps_app (t1 t2 : list event) : sleeps (t1 ++ t2) = sleeps t1 ++ sleeps t2.
Proof. apply omap_app. Qed.

Section FetchLoop.

Variable fromisoformat : string -> option Z.
Variable isoformat : Z -> string.
Variables owner repo : string.
Variable GH_TOKEN : option string.
Variable since_time : Z.

Local Abbreviation loop :=
  (fetch_loop fromisoformat isoformat owner repo GH_TOKEN since_time).
Local Abbreviation ask := (asking owner repo GH_TOKEN).
Local Abbreviation events_of_page :=
  (page_events isoformat owner repo GH_TOKEN since_time).

Lemma fetch_loop_unanswered p r all :
  loop [] p r all = (ask p, Pending).
Proof. reflexivity. Qed.

Lemma fetch_loop_exception e script p r all :
  loop (RequestException e :: script) p r all
  = (ask p ++ [EvPrint ("Request error: " +:+ e)], Returned []).
Proof. reflexivity. Qed.

Lemma fetch_loop_failed resp script p r all :
  status_code resp <> 200 ->
  loop (Response resp :: script) p r all
  = emit (ask p ++ [EvPrint ("Request failed, status code: "
                             +:+ Py.str_int (status_code resp));
                    EvPrint ("Error message: " +:+ text resp)])
      (if 0 <? r - 1
       then emit [EvPrint ("Retrying... (" +:+ Py.str_int (r - 1)
                           +:+ " attempts left)");
                  EvSleep 5]
              (loop script p (r - 1) all)
       else ([EvPrint "Max retries reached. Exiting."], Returned all)).
Proof.
  intros Hs. apply Z.eqb_neq in Hs.
  cbn [fetch_loop]. rewrite Hs. cbn [negb].
  rewrite emit_app. reflexivity.
Qed.

Lemma fetch_loop_json_error resp e script p r all :
  status_code resp = 200 -> json resp = JsonError e ->
  loop (Response resp :: script) p r all
  = (ask p ++ [EvPrint ("JSON parsing error: " +:+ e)], Returned []).
Proof.
  intros Hs Hj. apply Z.eqb_eq in Hs.
  cbn [fetch_loop]. rewrite Hs, Hj. reflexivity.
Qed.

Lemma fetch_loop_no_more_data resp script p r all :
  status_code resp = 200 -> json resp = JsonPulls [] ->
  loop (Response resp :: script) p r all
  = (ask p ++ [EvPrint "No more data"], Returned all).
Proof.
  intros Hs Hj. apply Z.eqb_eq in Hs.
  cbn [fetch_loop]. rewrite Hs, Hj. reflexivity.
Qed.

Lemma fetch_loop_page resp pulls recent_pulls script p r all :
  status_code resp = 200 -> json resp = JsonPulls pulls -> pulls <> [] ->
  scan_page fromisoformat since_time pulls = Some recent_pulls ->
  loop (Response resp :: script) p r all
  = emit (events_of_page p pulls recent_pulls)
      (if (length recent_pulls <? length pulls)%nat
       then ([], Returned (all ++ recent_pulls))
       else emit [EvSleep (8 + inject_Z (Z.of_nat (length (all ++ recent_pulls))) / 100)]
              (loop script (p + 1) 5 (all ++ recent_pulls))).
Proof.
  intros Hs Hj Hne Hscan. apply Z.eqb_eq in Hs.
  cbn [fetch_loop]. rewrite Hs, Hj. cbn [negb].
  destruct pulls as [|pull pulls']; [done|].
  rewrite Hscan. reflexivity.
Qed.

Lemma fetch_loop_page_raises resp pulls script p r all :
  status_code resp = 200 -> json resp = JsonPulls pulls ->
  scan_page fromisoformat since_time pulls = None ->
  (loop (Response resp :: script) p r all).2 = Raised ValueError.
Proof.
  intros Hs Hj Hscan. apply Z.eqb_eq in Hs.
  cbn [fetch_loop]. rewrite Hs, Hj. cbn [negb].
  destruct pulls as [|pull pulls']; [done|].
  rewrite Hscan. reflexivity.
Qed.

Lemma requested_pages_ask p : requested_pages (ask p) = [p].
Proof. reflexivity. Qed.

Lemma sleeps_ask p : sleeps (ask p) = [].
Proof. reflexivity. Qed.

(** Every iteration starts by requesting the current page. *)
Lemma fetch_loop_requests_first script p r all :
  exists more, requested_pages (loop script p r all).1 = p :: more.
Proof.
  destruct script as [|g script]; cbn [fetch_loop]; rewrite emit_trace;
    change ([EvPrint _; EvGet _]) with (ask p);
    rewrite requested_pages_app, requested_pages_ask; eauto.
Qed.

End FetchLoop.

(** ** Scanning one page *)

Section ScanPage.

Variable fromisoformat : string -> option Z.
Variable since : Z.

Local Abbreviation scan := (scan_page fromisoformat since).
Local Abbreviation inside :=
  (fun pull => in_window fromisoformat since (item_created_at pull) = true).
Local Abbreviation outside :=
  (fun pull => out_of_window fromisoformat since (item_created_at pull) = true).

Lemma scan_page_cons_inside pull rest :
  inside pull -> scan (pull :: rest) = cons (record_of_item pull) <$> scan rest.
Proof.
  unfold in_window. cbn [scan_page].
  destruct (created_time _ _) as [t|]; [|done].
  by intros ->.
Qed.

Lemma scan_page_cons_outside pull rest :
  outside pull -> scan (pull :: rest) = Some [].
Proof.
  unfold out_of_window. cbn [scan_page].
  destruct (created_time _ _) as [t|]; [|done].
  intros Ht%Z.ltb_lt. by rewrite (proj2 (Z.leb_gt since t)).
Qed.

(** An in-window prefix is kept, whatever follows it. *)
Lemma scan_page_app_inside kept rest :
  Forall inside kept ->
  scan (kept ++ rest) = app (record_of_item <$> kept) <$> scan rest.
Proof.
  induction 1 as [|pull kept Hin _ IH]; cbn [app fmap list_fmap].
  - by destruct (scan rest).
  - rewrite scan_page_cons_inside, IH by done.
    by destruct (scan rest).
Qed.

Lemma scan_page_all_inside kept :
  Forall inside kept -> scan kept = Some (record_of_item <$> kept).
Proof.
  intros H. rewrite <- (app_nil_r kept) at 1.
  rewrite scan_page_app_inside by done. cbn. by rewrite app_nil_r.
Qed.

Lemma scan_page_stops_at_older kept old tail :
  Forall inside kept -> outside old ->
  scan (kept ++ old :: tail) = Some (record_of_item <$> kept).
Proof.
  intros Hk Ho. rewrite scan_page_app_inside, scan_page_cons_outside by done.
  cbn. by rewrite app_nil_r.
Qed.

(** What is kept is a prefix of the page, entry by entry. *)
Lemma scan_page_prefix pulls recent :
  scan pulls = Some recent ->
  exists kept rest, pulls = kept ++ rest /\ recent = record_of_item <$> kept
                    /\ Forall inside kept.
Proof.
  revert recent. induction pulls as [|pull pulls IH]; intros recent.
  - intros [= <-]. by exists [], [].
  - cbn [scan_page]. destruct (created_time _ _) as [t|] eqn:Ht; [|done].
    destruct (since <=? t) eqn:Hle.
    + destruct (scan pulls) as [recent'|] eqn:Hs; [|done].
      intros [= <-]. destruct (IH _ eq_refl) as (kept & rest & -> & -> & Hk).
      exists (pull :: kept), rest. split_and!; [done..|].
      constructor; [|done]. unfold in_window. by rewrite Ht.
    + intros [= <-]. by exists [], (pull :: pulls).
Qed.

Lemma scan_page_length pulls recent :
  scan pulls = Some recent -> (length recent <= length pulls)%nat.
Proof.
  intros (kept & rest & -> & -> & _)%scan_page_prefix.
  rewrite length_fmap, length_app. lia.
Qed.

(** When as many entries are kept as the page holds, all are kept. *)
Lemma scan_page_full pulls recent :
  scan pulls = Some recent -> length recent = length pulls ->
  recent = record_of_item <$> pulls /\ Forall inside pulls.
Proof.
  intros (kept & rest & -> & -> & Hk)%scan_page_prefix.
  rewrite length_fmap, length_app. intros Hlen.
  assert (rest = []) as -> by (destruct rest; [done|cbn in Hlen; lia]).
  by rewrite app_nil_r.
Qed.

Lemma descending_cons_bound t ts :
  descending (t :: ts) = true -> Forall (fun u => u <= t) ts.
Proof.
  revert t. induction ts as [|u ts IH]; intros t; [constructor|].
  cbn [descending]. intros [Hut Hd]%andb_prop. apply Z.leb_le in Hut.
  constructor; [done|].
  eapply Forall_impl; [apply IH, Hd|]. cbn. lia.
Qed.

Lemma descending_tail t ts : descending (t :: ts) = true -> descending ts = true.
Proof. destruct ts; [done|]. cbn [descending]. by intros [_ ?]%andb_prop. Qed.

Lemma page_times_cons pull pulls ts :
  page_times fromisoformat (pull :: pulls) = Some ts ->
  exists t ts', ts = t :: ts'
    /\ created_time fromisoformat (item_created_at pull) = Some t
    /\ page_times fromisoformat pulls = Some ts'.
Proof.
  unfold page_times. cbn [mapM].
  destruct (created_time _ _) as [t|]; [|done]. cbn.
  destruct (mapM _ pulls) as [ts'|]; [|done]. cbn.
  intros [= <-]. eauto.
Qed.

(** Entries no newer than an instant before [since] are all outside. *)
Lemma page_times_all_outside pulls ts t :
  page_times fromisoformat pulls = Some ts ->
  Forall (fun u => u <= t) ts -> t < since -> Forall outside pulls.
Proof.
  revert ts. induction pulls as [|pull pulls IH]; intros ts Hts Hb Ht; [constructor|].
  destruct (page_times_cons _ _ _ Hts) as (u & ts' & -> & Hu & Hts').
  inversion Hb; subst. constructor; [|by eapply IH].
  unfold out_of_window. rewrite Hu. apply Z.ltb_lt. lia.
Qed.

(** A page in descending order is an in-window prefix followed by
    entries that are all older. *)
Lemma descending_page_split pulls ts :
  page_times fromisoformat pulls = Some ts -> descending ts = true ->
  exists kept rest, pulls = kept ++ rest /\ Forall inside kept /\ Forall outside rest.
Proof.
  revert ts. induction pulls as [|pull pulls IH]; intros ts Hts Hd.
  - by exists [], [].
  - destruct (page_times_cons _ _ _ Hts) as (t & ts' & -> & Ht & Hts').
    destruct (Z.le_gt_cases since t) as [Hle|Hgt].
    + destruct (IH ts' Hts' (descending_tail _ _ Hd)) as (kept & rest & -> & Hk & Hr).
      exists (pull :: kept), rest. split_and!; [done| |done].
      constructor; [|done]. unfold in_window. rewrite Ht. by apply Z.leb_le.
    + exists [], (pull :: pulls). split_and!; [done|constructor|].
      constructor.
      * unfold out_of_window. rewrite Ht. by apply Z.ltb_lt.
      * eapply page_times_all_outside; [done|by apply descending_cons_bound|done].
Qed.

End ScanPage.

(** C1.  On a page whose entries are in descending order of creation
    time, the scan keeps exactly the longest prefix of entries created at
    or after [since]: the page splits into a kept prefix, all in the
    window, and a rest, all older; the records kept are those of the
    prefix; and the scan stops at the first older entry, since what it
    keeps is the same whatever entries follow that one (even entries
    whose timestamp cannot be read). *)
Theorem scan_page_keeps_maximal_prefix :
  forall (fromisoformat : string -> option Z) (since : Z)
         (pulls : list pull_item) (ts : list Z),
    page_times fromisoformat pulls = Some ts ->
    descending ts = true ->
    exists kept rest,
      pulls = kept ++ rest
      /\ Forall (fun pull => in_window fromisoformat since (item_created_at pull) = true) kept
      /\ Forall (fun pull => out_of_window fromisoformat since (item_created_at pull) = true) rest
      /\ scan_page fromisoformat since pulls = Some (record_of_item <$> kept)
      /\ forall old tail, rest = old :: tail ->
           forall tail', scan_page fromisoformat since (kept ++ old :: tail')
                         = Some (record_of_item <$> kept).
Proof.
  intros parse since pulls ts Hts Hd.
  destruct (descending_page_split parse since pulls ts Hts Hd)
    as (kept & rest & -> & Hk & Hr).
  exists kept, rest. split_and!; [done..| |].
  - destruct rest as [|old tail].
    + rewrite app_nil_r. by apply scan_page_all_inside.
    + inversion Hr; subst. by apply scan_page_stops_at_older.
  - intros old tail -> tail'. inversion Hr; subst.
    by apply scan_page_stops_at_older.
Qed.

Lemma scan_page_keeps_maximal_prefix_witness :
  exists kept rest,
    [Scenario.fresh; Scenario.recent; Scenario.old] = kept ++ rest
    /\ Forall (fun pull => in_window Clock.fromisoformat
                 (Scenario.now - Py.timedelta_weeks 1) (item_created_at pull) = true) kept
    /\ Forall (fun pull => out_of_window Clock.fromisoformat
                 (Scenario.now - Py.timedelta_weeks 1) (item_created_at pull) = true) rest
    /\ scan_page Clock.fromisoformat (Scenario.now - Py.timedelta_weeks 1)
         [Scenario.fresh; Scenario.recent; Scenario.old]
       = Some (record_of_item <$> kept)
    /\ forall old tail, rest = old :: tail ->
         forall tail', scan_page Clock.fromisoformat
                         (Scenario.now - Py.timedelta_weeks 1) (kept ++ old :: tail')
                       = Some (record_of_item <$> kept).
Proof.
  apply (scan_page_keeps_maximal_prefix Clock.fromisoformat
           (Scenario.now - Py.timedelta_weeks 1)
           [Scenario.fresh; Scenario.recent; Scenario.old]
           [1793700000000000; 1793349000000000; 1790848800000000]).
  - vm_compute. reflexivity.
  - vm_compute. reflexivity.
Defined.

(** The scan of the page of the scenario, run: the two entries of the
    last week are kept, and the unreadable entry after the first older
    one is never read. *)
Example scan_page_run :
  scan_page Clock.fromisoformat (Scenario.now - Py.timedelta_weeks 1)
    [Scenario.fresh; Scenario.recent; Scenario.old; Scenario.unreadable]
  = Some [record_of_item Scenario.fresh; record_of_item Scenario.recent].
Proof. vm_compute. reflexivity. Qed.

(** Every record the scan keeps is built from the page entry at the
    same position, and when that entry has no [body] key at all the body
    of the record is the empty string: the default of [get] at line 89. *)
Theorem absent_body_is_empty_string :
  forall (fromisoformat : string -> option Z) (since : Z)
         (pulls : list pull_item) (recent_pulls : list pull_record),
    scan_page fromisoformat since pulls = Some recent_pulls ->
    forall (i : nat) (r : pull_record),
      recent_pulls !! i = Some r ->
      exists pull, pulls !! i = Some pull
                   /\ r = record_of_item pull
                   /\ (item_body pull = BodyMissing -> body r = Some EmptyString).
Proof.
  intros parse since pulls recent Hscan i r Hi.
  destruct (scan_page_prefix _ _ _ _ Hscan) as (kept & rest & -> & -> & _).
  rewrite list_lookup_fmap in Hi.
  destruct (kept !! i) as [pull|] eqn:Hk; [|done].
  injection Hi as <-. exists pull. split_and!.
  - by apply lookup_app_l_Some.
  - done.
  - cbn. by intros ->.
Qed.

Lemma absent_body_is_empty_string_witness :
  exists pull,
    [Scenario.fresh; Scenario.recent; Scenario.old] !! 1%nat = Some pull
    /\ record_of_item Scenario.recent = record_of_item pull
    /\ (item_body pull = BodyMissing
        -> body (record_of_item Scenario.recent) = Some EmptyString).
Proof.
  apply (absent_body_is_empty_string Clock.fromisoformat
           (Scenario.now - Py.timedelta_weeks 1)
           [Scenario.fresh; Scenario.recent; Scenario.old]
           [record_of_item Scenario.fresh; record_of_item Scenario.recent]
           ltac:(vm_compute; reflexivity) 1%nat).
  reflexivity.
Defined.

(** A [body] that is JSON [null] is another matter: the key is there,
    so the default of [get] is not used and the record holds [None],
    which the digest prints as the text [None]. *)
Lemma null_body_is_none (pull : pull_item) :
  item_body pull = BodyNull ->
  body (record_of_item pull) = None
  /\ body_text (body (record_of_item pull)) = "None".
Proof. cbn. by intros ->. Qed.

(** C9.  The code misses the case the claim is about.  For a pull
    request without description the hosting service sends the [body]
    key with JSON [null]; line 89 names the empty string as the default
    of [get], which [get] uses only when the key is missing.  Fetched
    from a page that holds such an entry, the record has the body
    [None], not the empty string, and the digest shows it as the text
    [None]; only the entry without [body] key gets the empty string. *)
Theorem null_body_is_not_the_empty_string :
  let page := [Scenario.fresh; Scenario.nobody; Scenario.recent; Scenario.old] in
  let fetched := (Scenario.fetch [Scenario.ok page]).2 in
  item_body <$> page
  = [BodyText "Adds a cache."; BodyNull; BodyMissing; BodyText "Long ago."]
  /\ (exists pulls : list pull_record,
        fetched = Returned pulls
        /\ number <$> pulls = [103; 101; 102]
        /\ body <$> pulls = [Some "Adds a cache."; None; Some EmptyString]
        /\ (exists r : pull_record,
              pulls !! 1%nat = Some r /\ body r <> Some EmptyString)
        /\ summary_lines pulls !! 11%nat
           = Some "   Description: None...").
Proof.
  cbn zeta. split; [reflexivity|].
  exists (record_of_item <$> [Scenario.fresh; Scenario.nobody; Scenario.recent]).
  split; [vm_compute; reflexivity|].
  split; [vm_compute; reflexivity|].
  split; [vm_compute; reflexivity|].
  split.
  - exists (record_of_item Scenario.nobody). split; [reflexivity|discriminate].
  - vm_compute. reflexivity.
Qed.

(** ** The fetch loop as a whole *)

Section FetchRuns.

Variable fromisoformat : string -> option Z.
Variable isoformat : Z -> string.
Variables owner repo : string.
Variable GH_TOKEN : option string.
Variable since_time : Z.

Local Abbreviation loop :=
  (fetch_loop fromisoformat isoformat owner repo GH_TOKEN since_time).
Local Abbreviation ask := (asking owner repo GH_TOKEN).

(** Case analysis on what one answer makes the loop do; the equations
    of the loop are used to rewrite the goal in each case. *)
Ltac answer_cases g p r all :=
  let e := fresh "e" in
  let resp := fresh "resp" in
  let Hs := fresh "Hstatus" in
  let Hj := fresh "Hjson" in
  let Hscan := fresh "Hscan" in
  let pulls := fresh "pulls" in
  let recent := fresh "recent" in
  destruct g as [e|resp];
  [ rewrite ?fetch_loop_exception
  | destruct (decide (status_code resp = 200)) as [Hs|Hs];
    [ destruct (json resp) as [e|pulls] eqn:Hj;
      [ rewrite ?(fetch_loop_json_error _ _ _ _ _ _ resp e) by done
      | destruct (decide (pulls = [])) as [->|?];
        [ rewrite ?(fetch_loop_no_more_data _ _ _ _ _ _ resp) by done
        | destruct (scan_page fromisoformat since_time pulls) as [recent|] eqn:Hscan;
          [ rewrite ?(fetch_loop_page _ _ _ _ _ _ resp pulls recent) by done;
            destruct (length recent <? length pulls)%nat eqn:?
          | ] ] ]
    | rewrite ?fetch_loop_failed by done;
      destruct (0 <? r - 1) eqn:? ] ].

(** A run that has not ended after the answers [pre] goes on with the
    answers that follow. *)
Lemma fetch_loop_reaches pre bad rest p r all :
  aborting bad = true ->
  (loop pre p r all).2 = Pending ->
  (loop (pre ++ bad :: rest) p r all).2 = Returned []
  /\ length (requested_pages (loop (pre ++ bad :: rest) p r all).1) = S (length pre).
Proof.
  intros Hbad. revert p r all.
  induction pre as [|g pre IH]; intros p r all Hpre.
  - cbn [app length]. destruct bad as [e|resp]; [by rewrite fetch_loop_exception|].
    cbn in Hbad. apply andb_prop in Hbad as [Hs%Z.eqb_eq Hj].
    destruct (json resp) as [e|] eqn:Hjson; [|done].
    by rewrite (fetch_loop_json_error _ _ _ _ _ _ resp e).
  - cbn [app length]. revert Hpre.
    answer_cases g p r all; rewrite ?emit_result; try done.
    + intros Hp. destruct (IH _ _ _ Hp) as [Hres Hreq]. split; [done|].
      rewrite !emit_trace, !requested_pages_app, !length_app, Hreq.
      reflexivity.
    + by rewrite (fetch_loop_page_raises _ _ _ _ _ _ resp pulls).
    + intros Hp. destruct (IH _ _ _ Hp) as [Hres Hreq]. split; [done|].
      rewrite !emit_trace, !requested_pages_app, !length_app, Hreq.
      reflexivity.
Qed.

(** The records of the result satisfy what the records accumulated so
    far and the records a scan keeps satisfy. *)
Lemma fetch_loop_invariant (P : pull_record -> Prop) script p r all result :
  (forall pulls recent, scan_page fromisoformat since_time pulls = Some recent ->
                        Forall P recent) ->
  Forall P all ->
  (loop script p r all).2 = Returned result ->
  Forall P result.
Proof.
  intros Hscan. revert p r all.
  induction script as [|g script IH]; intros p r all Hall; [done|].
  answer_cases g p r all; rewrite ?emit_result; cbn [snd]; try done.
  - by intros [= <-].
  - by intros [= <-].
  - by intros [= <-].
  - intros [= <-]. apply Forall_app; eauto.
  - apply IH. apply Forall_app; eauto.
  - by rewrite (fetch_loop_page_raises _ _ _ _ _ _ resp pulls).
  - by apply IH.
  - by intros [= <-].
Qed.

Lemma scan_page_in_window pulls recent :
  scan_page fromisoformat since_time pulls = Some recent ->
  Forall (fun r => in_window fromisoformat since_time (created_at r) = true) recent.
Proof.
  intros (kept & rest & -> & -> & Hk)%scan_page_prefix.
  apply Forall_fmap. eapply Forall_impl; [exact Hk|]. done.
Qed.

End FetchRuns.

(** ** Retries *)

Section Retries.

Variable fromisoformat : string -> option Z.
Variable isoformat : Z -> string.
Variables owner repo : string.
Variable GH_TOKEN : option string.
Variable since_time : Z.

Local Abbreviation loop :=
  (fetch_loop fromisoformat isoformat owner repo GH_TOKEN since_time).

Lemma failed_status g :
  failed g = true -> exists resp, g = Response resp /\ status_code resp <> 200.
Proof.
  destruct g as [e|resp]; [done|]. cbn. intros H%negb_true_iff%Z.eqb_neq. eauto.
Qed.

(** While attempts are left, a failed answer leads to the same page
    being asked for again, five seconds later. *)
Lemma fetch_loop_retries fails rest p r all :
  Forall (fun g => failed g = true) fails ->
  Z.of_nat (length fails) < r ->
  (loop (fails ++ rest) p r all).2
  = (loop rest p (r - Z.of_nat (length fails)) all).2
  /\ requested_pages (loop (fails ++ rest) p r all).1
     = replicate (length fails) p
       ++ requested_pages (loop rest p (r - Z.of_nat (length fails)) all).1
  /\ sleeps (loop (fails ++ rest) p r all).1
     = replicate (length fails) 5%Q
       ++ sleeps (loop rest p (r - Z.of_nat (length fails)) all).1.
Proof.
  intros Hf. revert r. induction Hf as [|g fails Hg _ IH]; intros r Hr.
  - cbn [length app replicate]. by rewrite Z.sub_0_r.
  - destruct (failed_status g Hg) as (resp & -> & Hs).
    cbn [length app] in *.
    rewrite fetch_loop_failed by done.
    rewrite (proj2 (Z.ltb_lt 0 (r - 1))) by lia.
    destruct (IH (r - 1) ltac:(lia)) as (Hres & Hreq & Hsl).
    replace (r - Z.of_nat (S (length fails)))
      with (r - 1 - Z.of_nat (length fails)) by lia.
    rewrite !emit_result, !emit_trace, !requested_pages_app, !sleeps_app.
    rewrite Hres, Hreq, Hsl. done.
Qed.

(** The failed answer that uses up the last attempt ends the fetch. *)
Lemma fetch_loop_last_attempt g rest p all :
  failed g = true ->
  (loop (g :: rest) p 1 all).2 = Returned all
  /\ requested_pages (loop (g :: rest) p 1 all).1 = [p]
  /\ sleeps (loop (g :: rest) p 1 all).1 = [].
Proof.
  intros (resp & -> & Hs)%failed_status.
  by rewrite fetch_loop_failed.
Qed.

End Retries.

(** C4, as the program has it.  From the start of a page (five attempts
    left), answers with a status other than 200 make the fetcher ask for
    the same page again after a pause of five seconds, as long as fewer
    than five of them came in a row: the page is requested at most five
    times in all, the first request and four retries.  The fifth failed
    answer in a row ends the fetch: no exception escapes, and what was
    accumulated from the pages before is returned, whatever answers
    would have followed. *)
Theorem failed_page_is_requested_five_times :
  forall (fromisoformat : string -> option Z) (isoformat : Z -> string)
         (owner repo : string) (GH_TOKEN : option string) (since_time : Z)
         (fails rest : list get_result) (p : Z) (all : list pull_record),
    Forall (fun g => failed g = true) fails ->
    let run := fetch_loop fromisoformat isoformat owner repo GH_TOKEN since_time
                 (fails ++ rest) p 5 all in
    ((length fails < 5)%nat ->
       let next := fetch_loop fromisoformat isoformat owner repo GH_TOKEN since_time
                     rest p (5 - Z.of_nat (length fails)) all in
       run.2 = next.2
       /\ requested_pages run.1 = replicate (length fails) p ++ requested_pages next.1
       /\ sleeps run.1 = replicate (length fails) 5%Q ++ sleeps next.1
       /\ exists more, requested_pages next.1 = p :: more)
    /\ (length fails = 5%nat ->
          run.2 = Returned all
          /\ requested_pages run.1 = replicate 5 p
          /\ sleeps run.1 = replicate 4 5%Q).
Proof.
  intros parse iso owner repo tok since fails rest p all Hf. cbn zeta. split.
  - intros Hlen.
    destruct (fetch_loop_retries parse iso owner repo tok since fails rest p 5 all Hf)
      as (Hres & Hreq & Hsl); [lia|].
    split_and!; [done..|]. apply fetch_loop_requests_first.
  - intros Hlen.
    destruct (decide (fails = [])) as [->|Hne]; [done|].
    destruct (exists_last Hne) as (init & g & ->).
    rewrite length_app in Hlen. cbn in Hlen.
    apply Forall_app in Hf as [Hinit Hg]. inversion Hg; subst.
    rewrite <- app_assoc. cbn [app].
    destruct (fetch_loop_retries parse iso owner repo tok since init (g :: rest) p 5 all Hinit)
      as (Hres & Hreq & Hsl); [lia|].
    replace (5 - Z.of_nat (length init)) with 1 in * by lia.
    destruct (fetch_loop_last_attempt parse iso owner repo tok since g rest p all)
      as (Hres' & Hreq' & Hsl'); [done|].
    rewrite Hres, Hreq, Hsl, Hres', Hreq', Hsl'.
    replace (length init) with 4%nat by lia. done.
Qed.

Lemma failed_page_is_requested_five_times_witness :
  (let run := fetch_loop Clock.fromisoformat Clock.isoformat "acme" "widget" None
                (Scenario.now - Py.timedelta_weeks 1)
                ([Scenario.busy; Scenario.busy]
                 ++ [Scenario.ok [Scenario.fresh; Scenario.old]]) 1 5 [] in
   let next := fetch_loop Clock.fromisoformat Clock.isoformat "acme" "widget" None
                 (Scenario.now - Py.timedelta_weeks 1)
                 [Scenario.ok [Scenario.fresh; Scenario.old]] 1 (5 - 2) [] in
   run.2 = next.2
   /\ requested_pages run.1 = replicate 2 1 ++ requested_pages next.1
   /\ sleeps run.1 = replicate 2 5%Q ++ sleeps next.1
   /\ exists more, requested_pages next.1 = 1 :: more)
  /\ (let run := fetch_loop Clock.fromisoformat Clock.isoformat "acme" "widget" None
                   (Scenario.now - Py.timedelta_weeks 1)
                   (replicate 5 Scenario.busy
                    ++ [Scenario.ok [Scenario.fresh; Scenario.old]]) 1 5 [] in
      run.2 = Returned []
      /\ requested_pages run.1 = replicate 5 1
      /\ sleeps run.1 = replicate 4 5%Q).
Proof.
  split.
  - apply (proj1 (failed_page_is_requested_five_times
                    Clock.fromisoformat Clock.isoformat
                    "acme" "widget" None (Scenario.now - Py.timedelta_weeks 1)
                    [Scenario.busy; Scenario.busy]
                    [Scenario.ok [Scenario.fresh; Scenario.old]] 1 []
                    ltac:(repeat constructor))).
    cbn. lia.
  - apply (proj2 (failed_page_is_requested_five_times
                    Clock.fromisoformat Clock.isoformat
                    "acme" "widget" None (Scenario.now - Py.timedelta_weeks 1)
                    (replicate 5 Scenario.busy)
                    [Scenario.ok [Scenario.fresh; Scenario.old]] 1 []
                    ltac:(repeat constructor))).
    reflexivity.
Defined.

(** C4, as the claim words it (five retries), fails: after five failed
    answers in a row the fetch is over.  The page was requested five
    times, with four pauses; a sixth request, the fifth retry, is not
    made, so the good answer that would have come sixth is never
    received and the result is empty, where that answer alone gives one
    record. *)
Lemma fifth_retry_is_never_made :
  let run := Scenario.fetch (replicate 5 Scenario.busy
                             ++ [Scenario.ok [Scenario.fresh; Scenario.old]]) in
  requested_pages run.1 = [1; 1; 1; 1; 1]
  /\ sleeps run.1 = [5; 5; 5; 5]%Q
  /\ run.2 = Returned []
  /\ ~ (exists more, requested_pages run.1 = replicate 6 1 ++ more)
  /\ (Scenario.fetch [Scenario.ok [Scenario.fresh; Scenario.old]]).2
     = Returned [record_of_item Scenario.fresh].
Proof.
  vm_compute. split_and!; try reflexivity.
  intros [more H]. discriminate H.
Qed.

(** ** When the fetcher stops asking for pages *)

(** C2.  After a page is received and scanned, the fetcher asks for no
    further page exactly when the page is empty or fewer entries were
    kept than the page holds.  It then returns what was accumulated
    together with the entries kept (for an empty page: what was
    accumulated, unchanged).  When every entry of a non-empty page is
    kept, the run goes on as the run on the remaining answers from the
    next page number, with the kept entries accumulated. *)
Theorem page_stop_rule :
  forall (fromisoformat : string -> option Z) (isoformat : Z -> string)
         (owner repo : string) (GH_TOKEN : option string) (since_time : Z)
         (resp : http_response) (pulls : list pull_item)
         (recent_pulls : list pull_record) (script : list get_result)
         (p r : Z) (all : list pull_record),
    status_code resp = 200 ->
    json resp = JsonPulls pulls ->
    scan_page fromisoformat since_time pulls = Some recent_pulls ->
    let run := fetch_loop fromisoformat isoformat owner repo GH_TOKEN since_time
                 (Response resp :: script) p r all in
    let next := fetch_loop fromisoformat isoformat owner repo GH_TOKEN since_time
                  script (p + 1) 5 (all ++ recent_pulls) in
    (requested_pages run.1 = [p]
     <-> pulls = [] \/ (length recent_pulls < length pulls)%nat)
    /\ (pulls = [] -> run.2 = Returned all)
    /\ (pulls = [] \/ (length recent_pulls < length pulls)%nat ->
        run.2 = Returned (all ++ recent_pulls))
    /\ (pulls <> [] -> length recent_pulls = length pulls ->
        run.2 = next.2
        /\ requested_pages run.1 = p :: requested_pages next.1
        /\ exists more, requested_pages run.1 = p :: (p + 1) :: more).
Proof.
  intros parse iso owner repo tok since resp pulls recent script p r all
    Hs Hj Hscan. cbn zeta.
  pose proof (scan_page_length _ _ _ _ Hscan) as Hle.
  destruct (fetch_loop_requests_first parse iso owner repo tok since
              script (p + 1) 5 (all ++ recent)) as [more Hmore].
  destruct (decide (pulls = [])) as [->|Hne].
  - injection Hscan as <-.
    rewrite (fetch_loop_no_more_data _ _ _ _ _ _ resp) by done.
    rewrite app_nil_r. cbn. split_and!; [naive_solver..|done].
  - rewrite (fetch_loop_page _ _ _ _ _ _ resp pulls recent) by done.
    destruct (length recent <? length pulls)%nat eqn:Hlt.
    + apply Nat.ltb_lt in Hlt. cbn. split_and!; [naive_solver..|lia].
    + apply Nat.ltb_ge in Hlt.
      rewrite !emit_result, !emit_trace, !requested_pages_app, Hmore.
      cbn. split_and!.
      * split; [intros [=]|]. intros [?|?]; [done|lia].
      * done.
      * intros [?|?]; [done|lia].
      * eauto.
Qed.

Lemma page_stop_rule_witness :
  let run := fetch_loop Clock.fromisoformat Clock.isoformat "acme" "widget" None
               (Scenario.now - Py.timedelta_weeks 1)
               [Scenario.ok [Scenario.fresh; Scenario.recent];
                Scenario.ok [Scenario.nobody; Scenario.old];
                Scenario.ok [Scenario.old]] 1 5 [] in
  let next := fetch_loop Clock.fromisoformat Clock.isoformat "acme" "widget" None
                (Scenario.now - Py.timedelta_weeks 1)
                [Scenario.ok [Scenario.nobody; Scenario.old];
                 Scenario.ok [Scenario.old]] (1 + 1) 5
                ([] ++ [record_of_item Scenario.fresh; record_of_item Scenario.recent]) in
  run.2 = next.2
  /\ requested_pages run.1 = 1 :: requested_pages next.1
  /\ exists more, requested_pages run.1 = 1 :: (1 + 1) :: more.
Proof.
  refine (proj2 (proj2 (proj2
    (page_stop_rule Clock.fromisoformat Clock.isoformat "acme" "widget" None
       (Scenario.now - Py.timedelta_weeks 1)
       {| status_code := 200; text := "[...]";
          json := JsonPulls [Scenario.fresh; Scenario.recent] |}
       [Scenario.fresh; Scenario.recent]
       [record_of_item Scenario.fresh; record_of_item Scenario.recent]
       [Scenario.ok [Scenario.nobody; Scenario.old]; Scenario.ok [Scenario.old]]
       1 5 [] _ _ _))) _ _).
  - reflexivity.
  - reflexivity.
  - vm_compute. reflexivity.
  - discriminate.
  - reflexivity.
Defined.

(** The run of the scenario: page 1 is kept whole, page 2 crosses the
    boundary of the window, and page 3 is never asked for. *)
Example fetch_two_pages_run :
  let run := Scenario.fetch [Scenario.ok [Scenario.fresh; Scenario.recent];
                             Scenario.ok [Scenario.nobody; Scenario.old];
                             Scenario.ok [Scenario.old]] in
  requested_pages run.1 = [1; 2]
  /\ run.2 = Returned [record_of_item Scenario.fresh;
                       record_of_item Scenario.recent;
                       record_of_item Scenario.nobody].
Proof. vm_compute. split; reflexivity. Qed.

(** ** The window *)

(** C3.  Every record the fetcher returns was created at or after
    [since], the one instant computed at the start of the call as the
    clock reading minus seven days; the same instant bounds the records
    of every page. *)
Theorem result_is_within_window :
  forall (fromisoformat : string -> option Z) (isoformat : Z -> string)
         (owner repo : string) (GH_TOKEN : option string) (now_utc : Z)
         (script : list get_result) (result : list pull_record),
    (get_recent_pulls_of_repo fromisoformat isoformat owner repo GH_TOKEN
       now_utc script).2 = Returned result ->
    Forall (fun r => exists t,
                created_time fromisoformat (created_at r) = Some t
                /\ now_utc - 7 * 24 * 3600 * 1000000 <= t) result.
Proof.
  intros parse iso owner repo tok now script result.
  unfold get_recent_pulls_of_repo. rewrite emit_result. intros Hrun.
  eapply (fetch_loop_invariant parse iso owner repo tok); [| |exact Hrun]; [|constructor].
  intros pulls recent Hscan.
  eapply Forall_impl; [exact (scan_page_in_window _ _ _ _ Hscan)|].
  cbn. intros r. unfold in_window, Py.timedelta_weeks.
  destruct (created_time parse (created_at r)) as [t|]; [|done].
  intros Ht%Z.leb_le. exists t. split; [done|lia].
Qed.

Lemma result_is_within_window_witness :
  Forall (fun r => exists t,
              created_time Clock.fromisoformat (created_at r) = Some t
              /\ Scenario.now - 7 * 24 * 3600 * 1000000 <= t)
    [record_of_item Scenario.fresh; record_of_item Scenario.recent;
     record_of_item Scenario.nobody].
Proof.
  apply (result_is_within_window Clock.fromisoformat Clock.isoformat
           "acme" "widget" None Scenario.now
           [Scenario.ok [Scenario.fresh; Scenario.recent];
            Scenario.ok [Scenario.nobody; Scenario.old];
            Scenario.ok [Scenario.old]]).
  vm_compute. reflexivity.
Defined.

(** ** Transport and decode failures *)

(** C5.  When the answer to a page request is a transport error, or a
    200 response whose body does not decode as JSON, the fetcher returns
    the empty list, whatever it had accumulated, and the failed request
    is its last one: there is no retry. *)
Theorem transport_or_decode_failure_returns_empty :
  forall (fromisoformat : string -> option Z) (isoformat : Z -> string)
         (owner repo : string) (GH_TOKEN : option string) (now_utc : Z)
         (pre : list get_result) (bad : get_result) (rest : list get_result),
    aborting bad = true ->
    (get_recent_pulls_of_repo fromisoformat isoformat owner repo GH_TOKEN
       now_utc pre).2 = Pending ->
    let run := get_recent_pulls_of_repo fromisoformat isoformat owner repo
                 GH_TOKEN now_utc (pre ++ bad :: rest) in
    run.2 = Returned []
    /\ length (requested_pages run.1) = S (length pre).
Proof.
  intros parse iso owner repo tok now pre bad rest Hbad.
  unfold get_recent_pulls_of_repo. cbn zeta.
  rewrite !emit_result, !emit_trace, requested_pages_app. intros Hpre.
  destruct (fetch_loop_reaches parse iso owner repo tok _ pre bad rest 1 5 [] Hbad Hpre)
    as [Hres Hreq].
  split; [done|]. rewrite length_app, Hreq. by destruct tok.
Qed.

Lemma transport_or_decode_failure_returns_empty_witness :
  (let run := Scenario.fetch ([Scenario.ok [Scenario.fresh; Scenario.recent]]
                              ++ Scenario.unreachable :: [Scenario.ok []]) in
   run.2 = Returned [] /\ length (requested_pages run.1) = 2%nat)
  /\ (let run := Scenario.fetch ([Scenario.ok [Scenario.fresh; Scenario.recent];
                                 Scenario.busy]
                                ++ Scenario.garbled :: [Scenario.ok []]) in
      run.2 = Returned [] /\ length (requested_pages run.1) = 3%nat).
Proof.
  split.
  - apply (transport_or_decode_failure_returns_empty
             Clock.fromisoformat Clock.isoformat "acme" "widget" None Scenario.now
             [Scenario.ok [Scenario.fresh; Scenario.recent]]
             Scenario.unreachable [Scenario.ok []]).
    + reflexivity.
    + vm_compute. reflexivity.
  - apply (transport_or_decode_failure_returns_empty
             Clock.fromisoformat Clock.isoformat "acme" "widget" None Scenario.now
             [Scenario.ok [Scenario.fresh; Scenario.recent]; Scenario.busy]
             Scenario.garbled [Scenario.ok []]).
    + reflexivity.
    + vm_compute. reflexivity.
Defined.

(** ** The program *)

Section Program.

Variable fromisoformat : string -> option Z.
Variable isoformat : Z -> string.
Variable strftime_Ymd : Z -> string.

Local Abbreviation fetch := (get_recent_pulls_of_repo fromisoformat isoformat).
Local Abbreviation program := (main fromisoformat isoformat strftime_Ymd).

(** The program on a world whose fetch returns no record. *)
Lemma main_nothing_found w owner repo trace :
  parse_args (argv w) = (owner, repo) ->
  fetch owner repo (env_GH_TOKEN w) (clock_utc w) (github w) = (trace, Returned []) ->
  program w = {| run_trace := trace ++ [EvPrint "No recent pull requests found."];
                 run_status := Exit 0;
                 run_disk := disk w |}.
Proof. intros Hargs Hfetch. unfold main. by rewrite Hargs, Hfetch. Qed.

(** The program on a world whose fetch returns records and whose
    text-generation call answers: what is left is what the report step
    leaves. *)
Lemma main_report_step w owner repo trace pulls ai_analysis :
  parse_args (argv w) = (owner, repo) ->
  fetch owner repo (env_GH_TOKEN w) (clock_utc w) (github w) = (trace, Returned pulls) ->
  pulls <> [] ->
  client_ok (genai w) = true ->
  generate_content (genai w) ai_model
    (ai_prompt (get_pulls_summary_as_string pulls) owner repo) = Some ai_analysis ->
  run_disk (program w) = (save_report strftime_Ymd owner repo ai_analysis w).1
  /\ run_status (program w)
     = match (save_report strftime_Ymd owner repo ai_analysis w).2 with
       | Some e => Crashed e
       | None => Finished
       end.
Proof.
  intros Hargs Hfetch Hne Hclient Hgen. unfold main.
  rewrite Hargs, Hfetch. destruct pulls as [|pull pulls]; [done|].
  unfold summarize_prs_by_ai. rewrite Hclient. cbn zeta.
  unfold emit. rewrite Hgen. cbn [fst snd].
  by destruct (save_report _ _ _ _ _) as [fs [e|]].
Qed.

End Program.

(** C6.  When the fetcher returns the empty list, the program prints
    the line [No recent pull requests found.] after what the fetcher
    printed, leaves through [sys.exit(0)], so that the exit status of
    the process is 0, and the file system is as it was: no report is
    written. *)
Theorem nothing_found_exits_cleanly :
  forall (fromisoformat : string -> option Z) (isoformat : Z -> string)
         (strftime_Ymd : Z -> string) (w : world) (trace : list event),
    get_recent_pulls_of_repo fromisoformat isoformat
      (parse_args (argv w)).1 (parse_args (argv w)).2
      (env_GH_TOKEN w) (clock_utc w) (github w) = (trace, Returned []) ->
    let r := main fromisoformat isoformat strftime_Ymd w in
    run_trace r = trace ++ [EvPrint "No recent pull requests found."]
    /\ run_status r = Exit 0
    /\ exit_code (run_status r) = Some 0
    /\ run_disk r = disk w.
Proof.
  intros parse iso strf w trace Hfetch. cbn zeta.
  rewrite (main_nothing_found parse iso strf w
             (parse_args (argv w)).1 (parse_args (argv w)).2 trace);
    [done|by destruct (parse_args (argv w))|done].
Qed.

Lemma nothing_found_exits_cleanly_witness :
  let w := Scenario.world_of ["main.py"; "acme"; "widget"]
             [Scenario.ok [Scenario.old]] in
  let r := Scenario.run_main w in
  run_trace r
  = (Scenario.fetch [Scenario.ok [Scenario.old]]).1
    ++ [EvPrint "No recent pull requests found."]
  /\ run_status r = Exit 0
  /\ exit_code (run_status r) = Some 0
  /\ run_disk r = Scenario.used_disk.
Proof.
  apply (nothing_found_exits_cleanly Clock.fromisoformat Clock.isoformat
           Clock.strftime_Ymd
           (Scenario.world_of ["main.py"; "acme"; "widget"]
              [Scenario.ok [Scenario.old]])).
  vm_compute. reflexivity.
Defined.

(** C10.  With one command-line argument the program uses the defaults
    [pytorch] and [pytorch] and runs exactly as with none; the owner and
    repository of the command line are used when, and only when, at least
    two arguments follow the script name. *)
Theorem one_argument_is_ignored :
  forall (fromisoformat : string -> option Z) (isoformat : Z -> string)
         (strftime_Ymd : Z -> string) (w : world)
         (prog a b : string) (more : list string),
    parse_args [prog; a] = ("pytorch", "pytorch")
    /\ parse_args [prog] = ("pytorch", "pytorch")
    /\ main fromisoformat isoformat strftime_Ymd (with_argv [prog; a] w)
       = main fromisoformat isoformat strftime_Ymd (with_argv [prog] w)
    /\ parse_args (prog :: a :: b :: more) = (a, b)
    /\ forall args : list string,
         (length args < 3)%nat -> parse_args args = ("pytorch", "pytorch").
Proof.
  intros parse iso strf w prog a b more. split_and!; try reflexivity.
  intros args Hlen. unfold parse_args.
  by rewrite (proj2 (Nat.leb_gt 3 (length args))).
Qed.

Lemma one_argument_is_ignored_witness :
  parse_args ["main.py"; "acme"] = ("pytorch", "pytorch")
  /\ parse_args ["main.py"; "acme"; "widget"] = ("acme", "widget").
Proof.
  destruct (one_argument_is_ignored Clock.fromisoformat Clock.isoformat
              Clock.strftime_Ymd (Scenario.world_of [] [])
              "main.py" "acme" "widget" [])
    as (_ & _ & _ & Hpair & Hfew).
  split; [apply Hfew; cbn; lia|exact Hpair].
Defined.

(** ** Where the report goes *)

Lemma append_assoc (a b c : string) : (a +:+ b) +:+ c = a +:+ b +:+ c.
Proof.
  induction a as [|x a IH]; [done|].
  change (String x ((a +:+ b) +:+ c) = String x (a +:+ b +:+ c)).
  by rewrite IH.
Qed.

Lemma startswith_slash_app (a b : string) :
  Py.startswith "/" a = false -> Py.startswith "/" (a +:+ "_" +:+ b) = false.
Proof. by destruct a. Qed.

Lemma ends_with_slash_app (a : string) (c : ascii) (b : string) :
  Py.ends_with_slash (a +:+ String c b) = Py.ends_with_slash (String c b).
Proof.
  induction a as [|x a IH]; [done|].
  change (String x a +:+ String c b) with (String x (a +:+ String c b)).
  rewrite <- IH.
  cbn [Py.ends_with_slash]. by destruct (a +:+ String c b) eqn:E; [destruct a|].
Qed.

Lemma ends_with_slash_underscore (b : string) :
  Py.ends_with_slash b = false -> Py.ends_with_slash (String "_" b) = false.
Proof. by destruct b. Qed.

Lemma report_dir_plain (owner repo : string) :
  Py.startswith "/" owner = false ->
  report_dir owner repo = "reports/" +:+ owner +:+ "_" +:+ repo.
Proof.
  intros Ho. unfold report_dir, Py.path_join.
  by rewrite startswith_slash_app.
Qed.

Lemma report_path_plain (strftime_Ymd : Z -> string) (owner repo : string) (w : world) :
  Py.startswith "/" owner = false ->
  Py.ends_with_slash repo = false ->
  report_path strftime_Ymd owner repo w
  = "reports/" +:+ owner +:+ "_" +:+ repo
    +:+ "/report-" +:+ strftime_Ymd (clock_local_1 w) +:+ ".md".
Proof.
  intros Ho Hr. unfold report_path. rewrite report_dir_plain by done.
  unfold Py.path_join. cbn [Py.startswith Ascii.eqb Bool.eqb].
  replace ("reports/" +:+ owner +:+ "_" +:+ repo)
    with (("reports/" +:+ owner) +:+ String "_" repo)
    by (by rewrite append_assoc).
  rewrite ends_with_slash_app, ends_with_slash_underscore by done.
  cbn [String.eqb Ascii.eqb Bool.eqb String.append orb].
  by rewrite !append_assoc.
Qed.

(** An owner that begins with a slash makes [os.path.join] drop the
    [reports] directory. *)
Example report_dir_of_absolute_owner : report_dir "/tmp" "x" = "/tmp_x".
Proof. reflexivity. Qed.

(** ** The report step *)

Lemma string_length_app (a b : string) :
  String.length (a +:+ b) = (String.length a + String.length b)%nat.
Proof.
  induction a as [|c a IH]; [done|].
  change (String c a +:+ b) with (String c (a +:+ b)).
  cbn [String.length]. by rewrite IH.
Qed.

Lemma append_nil_r (a : string) : a +:+ EmptyString = a.
Proof.
  induction a as [|c a IH]; [done|].
  change (String c a +:+ EmptyString) with (String c (a +:+ EmptyString)).
  by rewrite IH.
Qed.

(** The directories on the way to a path are no longer than the path. *)
Lemma dir_chain_from_length (rest : string) :
  forall prefix d,
    d ∈ dir_chain_from prefix rest ->
    (String.length d <= String.length prefix + String.length rest)%nat.
Proof.
  induction rest as [|c rest IH]; intros prefix d; cbn [dir_chain_from].
  - intros ->%list_elem_of_singleton. lia.
  - cbn [String.length].
    assert (d ∈ dir_chain_from (prefix +:+ String c EmptyString) rest ->
            (String.length d <= String.length prefix + S (String.length rest))%nat)
      as Hrest.
    { intros Hd%IH. rewrite string_length_app in Hd. cbn in Hd. lia. }
    destruct (Ascii.eqb c "/" && negb (String.eqb prefix EmptyString)); [|done].
    intros [->|Hd]%elem_of_cons; [lia|by apply Hrest].
Qed.

Lemma dir_chain_length (path d : string) :
  d ∈ dir_chain path -> (String.length d <= String.length path)%nat.
Proof. intros Hd%dir_chain_from_length. by cbn in Hd. Qed.

(** The path itself is the last of them. *)
Lemma dir_chain_from_self (rest : string) :
  forall prefix, (prefix +:+ rest) ∈ dir_chain_from prefix rest.
Proof.
  induction rest as [|c rest IH]; intros prefix; cbn [dir_chain_from].
  - rewrite append_nil_r. by apply list_elem_of_singleton.
  - assert (prefix +:+ String c rest = (prefix +:+ String c EmptyString) +:+ rest)
      as -> by (by rewrite append_assoc).
    destruct (Ascii.eqb c "/" && negb (String.eqb prefix EmptyString));
      [apply elem_of_cons; right|]; apply IH.
Qed.

Lemma dir_chain_self (path : string) : path ∈ dir_chain path.
Proof. apply (dir_chain_from_self path EmptyString). Qed.

Lemma existsb_is_file_none (fs : filesystem) (l : list string) (d : string) :
  existsb (is_file fs) l = false -> d ∈ l -> files fs !! d = None.
Proof.
  induction l as [|x l IH]; cbn [existsb]; [by intros _ ?%elem_of_nil|].
  intros [Hx Hl]%orb_false_elim [->|Hd]%elem_of_cons; [|by apply IH].
  unfold is_file in Hx. by destruct (files fs !! x).
Qed.

(** Writing a file does not change which of other paths are files. *)
Lemma existsb_is_file_write (fs : filesystem) (path content : string)
    (l : list string) :
  path ∉ l ->
  existsb (is_file (write_file path content fs)) l = existsb (is_file fs) l.
Proof.
  induction l as [|x l IH]; [done|]. cbn [existsb].
  intros [Hx Hl]%not_elem_of_cons. rewrite IH by done. f_equal.
  unfold is_file, write_file. cbn [files]. by rewrite lookup_insert_ne.
Qed.

Lemma makedirs_made (path : string) (fs : filesystem) :
  existsb (is_file fs) (dir_chain path) = false ->
  makedirs path fs = Some (with_dirs path fs).
Proof. unfold makedirs, with_dirs. by intros ->. Qed.

Lemma makedirs_blocked (path : string) (fs : filesystem) :
  existsb (is_file fs) (dir_chain path) = true -> makedirs path fs = None.
Proof. unfold makedirs. by intros ->. Qed.

(** Making directories that exist changes nothing. *)
Lemma with_dirs_absorbed (path : string) (fs : filesystem) :
  (forall d, d ∈ dir_chain path -> d ∈ dirs fs) -> with_dirs path fs = fs.
Proof.
  intros Hin. destruct fs as [ds fl]. unfold with_dirs. cbn [dirs files] in *.
  f_equal. apply set_eq. intros x.
  rewrite elem_of_union, elem_of_list_to_set.
  split; [intros [Hx|Hx]; [by apply Hin|done]|by right].
Qed.

(** Opening a file and writing to it, in terms of the content left. *)
Lemma write_after_open (path data : string) (fs : filesystem) :
  file_write path data
    {| dirs := dirs fs; files := <[ path := EmptyString ]> (files fs) |}
  = write_file path data fs.
Proof.
  unfold file_write, write_file. cbn [dirs files].
  by rewrite lookup_insert_eq, insert_insert_eq.
Qed.

Lemma write_more (path content data : string) (fs : filesystem) :
  file_write path data (write_file path content fs)
  = write_file path (content +:+ data) fs.
Proof.
  unfold file_write, write_file. cbn [dirs files].
  by rewrite lookup_insert_eq, insert_insert_eq.
Qed.

Lemma write_file_twice (path content content' : string) (fs : filesystem) :
  write_file path content (write_file path content' fs) = write_file path content fs.
Proof. unfold write_file. cbn [dirs files]. by rewrite insert_insert_eq. Qed.

(** The report file is longer than any directory on its way, and
    longer than the name [reports]. *)
Lemma report_path_length (strftime_Ymd : Z -> string) (owner repo : string)
    (w : world) :
  (String.length (report_dir owner repo) + 10
   <= String.length (report_path strftime_Ymd owner repo w))%nat.
Proof.
  unfold report_path, Py.path_join.
  replace (Py.startswith "/"
             ("report-" +:+ strftime_Ymd (clock_local_1 w) +:+ ".md"))
    with false by reflexivity.
  destruct (orb _ _); rewrite !string_length_app; cbn [String.length]; lia.
Qed.

Lemma report_path_not_dir (strftime_Ymd : Z -> string) (owner repo : string)
    (w : world) :
  (report_path strftime_Ymd owner repo w ∉ dir_chain "reports")
  /\ (report_path strftime_Ymd owner repo w ∉ dir_chain (report_dir owner repo)).
Proof.
  pose proof (report_path_length strftime_Ymd owner repo w) as Hlen.
  split; intros Hin%dir_chain_length; cbn [String.length] in Hin; lia.
Qed.

(** The report step, case by case: what is in the way decides where it
    stops and what it leaves. *)
Lemma save_report_cases (strftime_Ymd : Z -> string) (owner repo : string)
    (ai_analysis : option string) (w : world) :
  let path := report_path strftime_Ymd owner repo w in
  let fs1 := with_dirs "reports" (disk w) in
  let fs2 := with_dirs (report_dir owner repo) fs1 in
  save_report strftime_Ymd owner repo ai_analysis w
  = if existsb (is_file (disk w)) (dir_chain "reports")
    then (disk w, Some FileExistsError)
    else if existsb (is_file (disk w)) (dir_chain (report_dir owner repo))
    then (fs1, Some (makedirs_fault (report_dir owner repo) (disk w)))
    else if bool_decide (path ∈ dirs fs2)
    then (fs2, Some IsADirectoryError)
    else match ai_analysis with
         | None =>
             (write_file path (report_header strftime_Ymd owner repo w) fs2,
              Some TypeError)
         | Some text =>
             (write_file path (report_content strftime_Ymd owner repo text w) fs2,
              None)
         end.
Proof.
  cbn zeta. unfold save_report.
  destruct (existsb (is_file (disk w)) (dir_chain "reports")) eqn:Hb1.
  { by rewrite makedirs_blocked. }
  rewrite makedirs_made by done.
  destruct (existsb (is_file (disk w)) (dir_chain (report_dir owner repo))) eqn:Hb2.
  { by rewrite makedirs_blocked. }
  rewrite makedirs_made by done.
  unfold open_for_writing.
  destruct (bool_decide _); [done|].
  rewrite write_after_open.
  destruct ai_analysis as [text|]; [|done].
  rewrite !write_more. unfold report_content. by rewrite append_assoc.
Qed.

(** C8, as the program has it.  When pull requests were found and the
    text-generation service answered with a text, the program ends
    normally with the report written, provided no regular file is in the
    way of the directories and the report path is no directory: for an
    owner that does not begin with a slash and a repository name that
    does not end with one, the file
    [reports/<owner>_<repo>/report-<YYYYMMDD>.md], dated by the local
    clock, holds the header line naming owner/repo and two dates of the
    local clock (read again, less one week; and the local date), an
    empty line, the text the service returned and a line feed, whatever
    the file held before; the directories exist and no other file is
    touched. *)
Theorem report_is_written_to_dated_path :
  forall (fromisoformat : string -> option Z) (isoformat : Z -> string)
         (strftime_Ymd : Z -> string) (w : world) (owner repo : string)
         (pulls : list pull_record) (ai_analysis : string),
    parse_args (argv w) = (owner, repo) ->
    (get_recent_pulls_of_repo fromisoformat isoformat owner repo
       (env_GH_TOKEN w) (clock_utc w) (github w)).2 = Returned pulls ->
    pulls <> [] ->
    client_ok (genai w) = true ->
    generate_content (genai w) ai_model
      (ai_prompt (get_pulls_summary_as_string pulls) owner repo)
    = Some (Some ai_analysis) ->
    Py.startswith "/" owner = false ->
    Py.ends_with_slash repo = false ->
    let r := main fromisoformat isoformat strftime_Ymd w in
    let today := strftime_Ymd (clock_local_1 w) in
    let week_ago := strftime_Ymd (clock_local_2 w - 7 * 24 * 3600 * 1000000) in
    let dir := "reports/" +:+ owner +:+ "_" +:+ repo in
    let path := "reports/" +:+ owner +:+ "_" +:+ repo
                +:+ "/report-" +:+ today +:+ ".md" in
    existsb (is_file (disk w)) (dir_chain dir) = false ->
    path ∉ dirs (disk w) ->
    run_status r = Finished
    /\ files (run_disk r) !! path
       = Some ("# AI Analysis of Pull Requests for " +:+ owner +:+ "/" +:+ repo
               +:+ " during " +:+ week_ago +:+ "-" +:+ today +:+ Py.nl +:+ Py.nl
               +:+ ai_analysis +:+ Py.nl)
    /\ (forall other : string,
          other <> path -> files (run_disk r) !! other = files (disk w) !! other)
    /\ "reports" ∈ dirs (run_disk r)
    /\ dir ∈ dirs (run_disk r).
Proof.
  intros parse iso strf w owner repo pulls ai Hargs Hfetch Hne Hclient Hgen Ho Hr.
  cbn zeta. intros Hfree Hnodir.
  destruct (get_recent_pulls_of_repo parse iso owner repo (env_GH_TOKEN w)
              (clock_utc w) (github w)) as [trace fetched] eqn:Hrun.
  cbn in Hfetch. subst fetched.
  destruct (main_report_step parse iso strf w owner repo trace pulls (Some ai)
              Hargs Hrun Hne Hclient Hgen) as [Hdisk Hstatus].
  pose proof (report_path_not_dir strf owner repo w) as [Hnot1 Hnot2].
  revert Hdisk Hstatus Hnot1 Hnot2.
  rewrite save_report_cases, report_path_plain, report_dir_plain by done.
  assert (existsb (is_file (disk w)) (dir_chain "reports") = false) as ->.
  { assert (files (disk w) !! "reports" = None) as Hnone.
    { apply (existsb_is_file_none _ _ _ Hfree).
      change (dir_chain ("reports/" +:+ owner +:+ "_" +:+ repo))
        with ("reports" :: dir_chain_from "reports/" (owner +:+ "_" +:+ repo)).
      apply elem_of_cons. by left. }
    change (dir_chain "reports") with ["reports"].
    cbn [existsb]. unfold is_file. by rewrite Hnone. }
  rewrite Hfree. intros Hdisk Hstatus Hnot1 Hnot2.
  rewrite bool_decide_eq_false_2 in Hdisk, Hstatus.
  2,3: (unfold with_dirs; cbn [dirs]; rewrite !elem_of_union, !elem_of_list_to_set;
        tauto).
  cbn [fst snd] in Hdisk, Hstatus. rewrite Hstatus, Hdisk.
  unfold write_file, with_dirs, report_content, report_header, Py.timedelta_weeks.
  cbn [files dirs]. split_and!.
  - done.
  - rewrite lookup_insert_eq. f_equal.
    rewrite !append_assoc. repeat (f_equal; try lia).
  - intros other Hother. by rewrite lookup_insert_ne.
  - rewrite !elem_of_union, !elem_of_list_to_set. right. left.
    apply dir_chain_self.
  - rewrite !elem_of_union, !elem_of_list_to_set. left. apply dir_chain_self.
Qed.

Lemma report_is_written_to_dated_path_witness :
  let w := Scenario.world_of ["main.py"; "acme"; "widget"]
             [Scenario.ok [Scenario.fresh; Scenario.recent];
              Scenario.ok [Scenario.nobody; Scenario.old]] in
  let r := Scenario.run_main w in
  run_status r = Finished
  /\ files (run_disk r) !! "reports/acme_widget/report-20261103.md"
     = Some ("# AI Analysis of Pull Requests for acme/widget during 20261027-20261103"
             +:+ Py.nl +:+ Py.nl
             +:+ "- 3 PRs; caching is the main theme." +:+ Py.nl)
  /\ (forall other : string,
        other <> "reports/acme_widget/report-20261103.md" ->
        files (run_disk r) !! other = files Scenario.used_disk !! other)
  /\ "reports" ∈ dirs (run_disk r)
  /\ "reports/acme_widget" ∈ dirs (run_disk r).
Proof.
  apply (report_is_written_to_dated_path Clock.fromisoformat Clock.isoformat
           Clock.strftime_Ymd
           (Scenario.world_of ["main.py"; "acme"; "widget"]
              [Scenario.ok [Scenario.fresh; Scenario.recent];
               Scenario.ok [Scenario.nobody; Scenario.old]])
           "acme" "widget"
           [record_of_item Scenario.fresh; record_of_item Scenario.recent;
            record_of_item Scenario.nobody]
           "- 3 PRs; caching is the main theme.").
  - reflexivity.
  - vm_compute. reflexivity.
  - discriminate.
  - reflexivity.
  - reflexivity.
  - reflexivity.
  - reflexivity.
  - vm_compute. reflexivity.
  - apply (bool_decide_unpack _). vm_compute. exact I.
Defined.

(** ** Lines and numbers in a text *)

Lemma append_cons (c : ascii) (a b : string) :
  String c a +:+ b = String c (a +:+ b).
Proof. reflexivity. Qed.

Lemma split_lines_nonempty (s : string) : Text.split_lines s <> [].
Proof.
  destruct s as [|c s]; cbn [Text.split_lines]; [done|].
  destruct (Text.is_nl c); [done|]. by destruct (Text.split_lines s).
Qed.

(** A line feed between two texts separates their lines. *)
Lemma split_lines_app (a b : string) :
  Text.split_lines (a +:+ Py.nl +:+ b) = Text.split_lines a ++ Text.split_lines b.
Proof.
  induction a as [|c a IH].
  - reflexivity.
  - rewrite append_cons. cbn [Text.split_lines]. rewrite IH.
    destruct (Text.is_nl c); [done|].
    pose proof (split_lines_nonempty a) as Hne.
    by destruct (Text.split_lines a).
Qed.

Lemma split_lines_join (parts : list string) :
  parts <> [] ->
  Text.split_lines (Py.join Py.nl parts) = concat (Text.split_lines <$> parts).
Proof.
  induction parts as [|p parts IH]; [done|]. intros _.
  destruct parts as [|q parts].
  - cbn. by rewrite app_nil_r.
  - change (Py.join Py.nl (p :: q :: parts))
      with (p +:+ Py.nl +:+ Py.join Py.nl (q :: parts)).
    rewrite split_lines_app, IH by done. reflexivity.
Qed.

Lemma all_chars_app (P : ascii -> bool) (a b : string) :
  Text.all_chars P (a +:+ b) = Text.all_chars P a && Text.all_chars P b.
Proof.
  induction a as [|c a IH]; [done|].
  rewrite append_cons. cbn [Text.all_chars]. rewrite IH. by rewrite andb_assoc.
Qed.

Lemma all_chars_impl (P Q : ascii -> bool) (s : string) :
  (forall c, P c = true -> Q c = true) ->
  Text.all_chars P s = true -> Text.all_chars Q s = true.
Proof.
  intros HPQ. induction s as [|c s IH]; [done|]. cbn [Text.all_chars].
  intros [Hc Hs]%andb_prop. by rewrite (HPQ c Hc), IH.
Qed.

Lemma single_line_app (a b : string) :
  Text.single_line (a +:+ b) = Text.single_line a && Text.single_line b.
Proof. apply all_chars_app. Qed.

Lemma split_lines_single (s : string) :
  Text.single_line s = true -> Text.split_lines s = [s].
Proof.
  unfold Text.single_line.
  induction s as [|c s IH]; [done|]. cbn [Text.all_chars Text.split_lines].
  intros [Hc Hs]%andb_prop. apply negb_true_iff in Hc. by rewrite Hc, IH.
Qed.

Lemma strip_prefix_app (p s : string) : Text.strip_prefix p (p +:+ s) = Some s.
Proof.
  induction p as [|c p IH]; [by destruct s|].
  rewrite append_cons. cbn [Text.strip_prefix]. by rewrite Ascii.eqb_refl.
Qed.

Lemma startswith_app (p s : string) : Py.startswith p (p +:+ s) = true.
Proof.
  induction p as [|c p IH]; [by destruct s|].
  rewrite append_cons. cbn [Py.startswith]. by rewrite Ascii.eqb_refl.
Qed.

Lemma break_at_app (c : ascii) (s r : string) :
  Text.all_chars (fun a => negb (Ascii.eqb a c)) s = true ->
  Text.break_at c (s +:+ String c r) = (s, String c r).
Proof.
  induction s as [|a s IH].
  - intros _. change (EmptyString +:+ String c r) with (String c r).
    cbn [Text.break_at]. by rewrite Ascii.eqb_refl.
  - cbn [Text.all_chars]. intros [Ha Hs]%andb_prop. apply negb_true_iff in Ha.
    rewrite append_cons. cbn [Text.break_at]. by rewrite Ha, IH.
Qed.

Lemma string_of_uint_numeric (d : Decimal.uint) :
  Text.all_chars Text.numeric (NilEmpty.string_of_uint d) = true.
Proof. induction d; cbn [NilEmpty.string_of_uint Text.all_chars]; by rewrite ?IHd. Qed.

(** What [str] prints for an [int] is made of digits and a sign. *)
Lemma str_int_numeric (n : Z) : Text.all_chars Text.numeric (Py.str_int n) = true.
Proof.
  unfold Py.str_int, NilZero.string_of_int, NilZero.string_of_uint.
  destruct (Z.to_int n) as [d|d]; destruct d; try reflexivity;
    cbn [Text.all_chars]; rewrite ?andb_true_l; apply string_of_uint_numeric.
Qed.

Lemma str_int_without (c : ascii) (n : Z) :
  Text.numeric c = false ->
  Text.all_chars (fun a => negb (Ascii.eqb a c)) (Py.str_int n) = true.
Proof.
  intros Hc. eapply all_chars_impl; [|apply str_int_numeric].
  intros a Ha. apply negb_true_iff, Ascii.eqb_neq. by intros ->; congruence.
Qed.

Lemma str_int_single_line (n : Z) : Text.single_line (Py.str_int n) = true.
Proof.
  eapply all_chars_impl; [|apply (str_int_without (ascii_of_nat 10) n); reflexivity].
  done.
Qed.

(** Reading back what [str] prints gives the number. *)
Lemma int_of_str_str_int (n : Z) : Py.int_of_str (Py.str_int n) = Some n.
Proof.
  unfold Py.int_of_str, Py.str_int.
  rewrite NilZero.isi.
  - cbn. by rewrite DecimalZ.of_to.
  - destruct n; cbn; [done| |done]. intros [= H]. by apply DecimalPos.Unsigned.to_uint_nonnil in H.
  - destruct n; cbn; [done..|]. intros [= H]. by apply DecimalPos.Unsigned.to_uint_nonnil in H.
Qed.

(** ** Reading the digest back *)

Lemma rescan_entry_reads (i n : Z) (t u : string) :
  Rescan.rescan_entry i
    (Py.str_int i +:+ ". PR #" +:+ Py.str_int n +:+ ": " +:+ t)
    ("   Author: " +:+ u)
  = Some (n, t, u).
Proof.
  unfold Rescan.rescan_entry, Rescan.entry_prefix.
  rewrite <- (append_assoc (Py.str_int i) ". PR #").
  rewrite (strip_prefix_app (Py.str_int i +:+ ". PR #")).
  cbn [mbind option_bind].
  change (": " +:+ t) with (String ":" (String " " t)).
  rewrite break_at_app by (by apply str_int_without).
  cbn [fst snd]. rewrite int_of_str_str_int. cbn [mbind option_bind].
  change (Text.strip_prefix ": " (String ":" (String " " t))) with (Some t).
  cbn [mbind option_bind]. by rewrite (strip_prefix_app "   Author: ").
Qed.

Lemma opens_entry_first_line (i : Z) (rest : string) :
  Rescan.opens_entry i (Py.str_int i +:+ ". PR #" +:+ rest) = true.
Proof.
  unfold Rescan.opens_entry, Rescan.entry_prefix.
  rewrite <- (append_assoc (Py.str_int i) ". PR #"). apply startswith_app.
Qed.

Lemma opens_entry_empty (i : Z) : Rescan.opens_entry i EmptyString = false.
Proof.
  unfold Rescan.opens_entry, Rescan.entry_prefix.
  by destruct (Py.str_int i).
Qed.

Lemma skip_to_opens (i : Z) (l : string) (rest : list string) :
  Rescan.opens_entry i l = true -> Rescan.skip_to i (l :: rest) = l :: rest.
Proof. cbn [Rescan.skip_to]. by intros ->. Qed.

Lemma skip_to_app (i : Z) (junk lines : list string) :
  forallb (fun l => negb (Rescan.opens_entry i l)) junk = true ->
  Rescan.skip_to i (junk ++ lines) = Rescan.skip_to i lines.
Proof.
  induction junk as [|l junk IH]; [done|]. cbn [forallb app Rescan.skip_to].
  intros [Hl Hj]%andb_prop. apply negb_true_iff in Hl. by rewrite Hl, IH.
Qed.

(** The lines of the text that one entry gives. *)
Lemma entry_text_lines (i : Z) (p : pull_record) :
  Text.single_line (title p) = true ->
  Text.single_line (user p) = true ->
  concat (Text.split_lines <$> entry_lines i p)
  = (Py.str_int i +:+ ". PR #" +:+ Py.str_int (number p) +:+ ": " +:+ title p)
    :: ("   Author: " +:+ user p)
    :: (Rescan.field_lines p ++ [EmptyString; EmptyString; EmptyString]).
Proof.
  intros Ht Hu. unfold entry_lines, Rescan.field_lines.
  cbn [fmap list_fmap concat].
  rewrite (split_lines_single (Py.str_int i +:+ _)), (split_lines_single ("   Author: " +:+ _)).
  - change (Text.split_lines (Py.nl +:+ Py.nl))
      with [EmptyString; EmptyString; EmptyString].
    cbn [app]. rewrite !app_nil_r, <- !app_assoc. reflexivity.
  - by rewrite single_line_app, Hu.
  - by rewrite !single_line_app, !str_int_single_line, Ht.
Qed.

(** The entries are read back one after the other, whatever lines that
    open no entry come first. *)
Lemma rescan_entries_reads (pulls : list pull_record) :
  forall (i : Z) (junk : list string),
    Rescan.all_framed i pulls = true ->
    forallb (fun l => negb (Rescan.opens_entry i l)) junk = true ->
    Rescan.rescan_entries (length pulls) i
      (junk ++ concat (Text.split_lines <$> entries_from i pulls))
    = Some (Rescan.key_of <$> pulls).
Proof.
  induction pulls as [|p pulls IH]; intros i junk Hframed Hjunk; [done|].
  cbn [Rescan.all_framed] in Hframed.
  apply andb_prop in Hframed as [Hp Hrest]. unfold Rescan.framed in Hp.
  apply andb_prop in Hp as [Hp Hfields]. apply andb_prop in Hp as [Ht Hu].
  cbn [entries_from length Rescan.rescan_entries].
  rewrite fmap_app, concat_app, entry_text_lines by done.
  rewrite skip_to_app by done.
  cbn [app]. rewrite skip_to_opens by apply opens_entry_first_line.
  rewrite rescan_entry_reads. cbn [mbind option_bind].
  rewrite IH; [done|done|].
  rewrite forallb_app, Hfields. cbn [forallb].
  by rewrite opens_entry_empty.
Qed.

Lemma rescan_count_reads (n : nat) :
  Rescan.rescan_count ("There are " +:+ Py.str_int (Z.of_nat n)
                       +:+ " pull requests recently:")
  = Some n.
Proof.
  unfold Rescan.rescan_count. rewrite strip_prefix_app. cbn [mbind option_bind].
  change (" pull requests recently:") with (String " " "pull requests recently:").
  rewrite break_at_app by (by apply str_int_without).
  cbn [fst]. rewrite int_of_str_str_int. cbn [mbind option_bind].
  by rewrite Nat2Z.id.
Qed.

Lemma rescan_reads (pulls : list pull_record) :
  Rescan.all_framed 1 pulls = true ->
  Rescan.rescan (get_pulls_summary_as_string pulls) = Some (Rescan.key_of <$> pulls).
Proof.
  intros Hframed. unfold Rescan.rescan, get_pulls_summary_as_string, summary_lines.
  rewrite split_lines_join by done. cbn [fmap list_fmap concat].
  change (Text.split_lines (Py.nl +:+ ?s)) with
    (EmptyString :: Text.split_lines s).
  rewrite split_lines_single
    by (by rewrite !single_line_app, str_int_single_line).
  cbn [app]. rewrite rescan_count_reads. cbn [mbind option_bind].
  by apply (rescan_entries_reads pulls 1 []).
Qed.

Lemma opens_entry_indented (i : Z) (s : string) :
  Rescan.opens_entry i (String " " s) = false.
Proof.
  unfold Rescan.opens_entry, Rescan.entry_prefix.
  pose proof (str_int_numeric i) as Hnum.
  destruct (Py.str_int i) as [|c d]; [done|].
  rewrite append_cons. cbn [Py.startswith].
  cbn [Text.all_chars] in Hnum. apply andb_prop in Hnum as [Hc _].
  destruct (Ascii.eqb_spec c " ") as [->|]; [discriminate Hc|done].
Qed.

Lemma join_single_line (ls : list string) :
  forallb Text.single_line ls = true -> Text.single_line (Py.join ", " ls) = true.
Proof.
  induction ls as [|l ls IH]; [done|]. cbn [forallb].
  intros [Hl Hls]%andb_prop. destruct ls as [|l' ls]; [done|].
  change (Py.join ", " (l :: l' :: ls)) with (l +:+ ", " +:+ Py.join ", " (l' :: ls)).
  by rewrite !single_line_app, Hl, IH.
Qed.

Lemma labels_text_single_line (ls : list string) :
  forallb Text.single_line ls = true -> Text.single_line (labels_text ls) = true.
Proof. destruct ls; [done|]. apply join_single_line. Qed.

(** A record whose printed fields are single lines is framed, whatever
    its number in the digest. *)
Lemma single_line_record_framed (i : Z) (p : pull_record) :
  single_line_record p = true -> Rescan.framed i p = true.
Proof.
  unfold single_line_record, Rescan.framed, Rescan.field_lines.
  intros H. repeat (apply andb_prop in H as [H ?]).
  rewrite H, H3. cbn [andb fmap list_fmap concat].
  rewrite (split_lines_single ("   Created at: " +:+ _)),
    (split_lines_single ("   Labels: " +:+ _)),
    (split_lines_single ("   Description: " +:+ _)).
  - cbn [app forallb]. change ("   Created at: " +:+ ?s) with (String " " ("  Created at: " +:+ s)).
    change ("   Labels: " +:+ ?s) with (String " " ("  Labels: " +:+ s)).
    change ("   Description: " +:+ ?s) with (String " " ("  Description: " +:+ s)).
    by rewrite !opens_entry_indented.
  - rewrite !single_line_app. by rewrite H0.
  - rewrite single_line_app. by rewrite labels_text_single_line.
  - rewrite single_line_app. by rewrite H2.
Qed.

Lemma single_line_records_framed (pulls : list pull_record) (i : Z) :
  forallb single_line_record pulls = true -> Rescan.all_framed i pulls = true.
Proof.
  revert i. induction pulls as [|p pulls IH]; intros i; [done|].
  cbn [forallb Rescan.all_framed]. intros [Hp Hrest]%andb_prop.
  by rewrite single_line_record_framed, IH.
Qed.

(** ** The lines of the digest *)

Lemma entries_from_block (pulls : list pull_record) :
  forall (i : Z) (k : nat) (p : pull_record),
    pulls !! k = Some p ->
    exists pre post,
      entries_from i pulls = pre ++ entry_lines (i + Z.of_nat k) p ++ post
      /\ length pre = (6 * k)%nat.
Proof.
  induction pulls as [|q pulls IH]; intros i k p Hk; [done|].
  destruct k as [|k].
  - injection Hk as ->. exists [], (entries_from (i + 1) pulls).
    by rewrite Z.add_0_r.
  - destruct (IH (i + 1) k p Hk) as (pre & post & Heq & Hlen).
    exists (entry_lines i q ++ pre), post. split.
    + cbn [entries_from]. rewrite Heq, <- app_assoc.
      by replace (i + 1 + Z.of_nat k) with (i + Z.of_nat (S k)) by lia.
    + rewrite length_app, Hlen. cbn [entry_lines length]. lia.
Qed.

Lemma entries_from_length (pulls : list pull_record) (i : Z) :
  length (entries_from i pulls) = (6 * length pulls)%nat.
Proof.
  revert i. induction pulls as [|p pulls IH]; intros i; [done|].
  cbn [entries_from]. rewrite length_app, IH. cbn [entry_lines length]. lia.
Qed.

(** C7, as the program has it.  For every list of records the digest
    is the line of the count followed by six lines per record, in the
    order received: the record at position [k] gives the line numbered
    [k + 1] with the number and the title of the pull request as they
    are, then the line of the author as it is, and the description line
    is the body followed by three dots.  Reading the digest back gives
    the numbers, titles and authors of the records when every entry is
    framed (title and author are single lines and no later line of the
    entry begins like the next entry), which is so when all the fields
    printed are single lines. *)
Theorem digest_lists_every_record :
  forall pulls : list pull_record,
    length (summary_lines pulls) = (1 + 6 * length pulls)%nat
    /\ get_pulls_summary_as_string pulls = Py.join Py.nl (summary_lines pulls)
    /\ (forall (k : nat) (p : pull_record),
          pulls !! k = Some p ->
          summary_lines pulls !! (1 + 6 * k)%nat
          = Some (Py.str_int (Z.of_nat k + 1) +:+ ". PR #"
                  +:+ Py.str_int (number p) +:+ ": " +:+ title p)
          /\ summary_lines pulls !! (2 + 6 * k)%nat
             = Some ("   Author: " +:+ user p)
          /\ summary_lines pulls !! (5 + 6 * k)%nat
             = Some ("   Description: " +:+ body_text (body p) +:+ "..."))
    /\ (Rescan.all_framed 1 pulls = true ->
        Rescan.rescan (get_pulls_summary_as_string pulls)
        = Some (Rescan.key_of <$> pulls))
    /\ (forallb single_line_record pulls = true ->
        Rescan.all_framed 1 pulls = true).
Proof.
  intros pulls. split_and!.
  - unfold summary_lines. cbn [length]. by rewrite entries_from_length.
  - reflexivity.
  - intros k p Hk. unfold summary_lines.
    destruct (entries_from_block pulls 1 k p Hk) as (pre & post & -> & Hlen).
    replace (1 + Z.of_nat k) with (Z.of_nat k + 1) by lia.
    replace (1 + 6 * k)%nat with (S (length pre + 0)) by lia.
    replace (2 + 6 * k)%nat with (S (length pre + 1)) by lia.
    replace (5 + 6 * k)%nat with (S (length pre + 4)) by lia.
    rewrite !lookup_cons.
    split_and!; rewrite lookup_app_r by lia.
    + by replace (length pre + 0 - length pre)%nat with 0%nat by lia.
    + by replace (length pre + 1 - length pre)%nat with 1%nat by lia.
    + by replace (length pre + 4 - length pre)%nat with 4%nat by lia.
  - apply rescan_reads.
  - apply single_line_records_framed.
Qed.

Lemma digest_lists_every_record_witness :
  let pulls := record_of_item <$> [Scenario.fresh; Scenario.nobody; Scenario.recent] in
  (summary_lines pulls !! 7%nat = Some "2. PR #101: Bump version"
   /\ summary_lines pulls !! 8%nat = Some "   Author: alice"
   /\ summary_lines pulls !! 11%nat = Some "   Description: None...")
  /\ Rescan.rescan (get_pulls_summary_as_string pulls)
     = Some [(103, "Add cache", "alice"); (101, "Bump version", "alice");
             (102, "Fix typo", "alice")]
  /\ Rescan.all_framed 1 pulls = true.
Proof.
  cbn zeta.
  destruct (digest_lists_every_record
              (record_of_item <$> [Scenario.fresh; Scenario.nobody; Scenario.recent]))
    as (_ & _ & Hlines & Hscan & Hframed).
  split; [|split].
  - exact (Hlines 1%nat (record_of_item Scenario.nobody) eq_refl).
  - apply Hscan. vm_compute. reflexivity.
  - apply Hframed. vm_compute. reflexivity.
Defined.

(** C7, as the claim words it (for every list of records, reading the
    digest back gives the numbers, titles and authors), fails: two lists
    of records whose second pull requests differ in number, title and
    author have the same digest, because the description of a record is
    free text and can hold what looks like the end of its entry and the
    start of the next.  No reader of the digest can be right on both. *)
Lemma digest_is_ambiguous :
  get_pulls_summary_as_string Scenario.forged_a
  = get_pulls_summary_as_string Scenario.forged_b
  /\ Rescan.key_of <$> Scenario.forged_a
     = [(1, "First", "alice"); (8, "Eighth", "carol")]
  /\ Rescan.key_of <$> Scenario.forged_b
     = [(1, "First", "alice"); (7, "Seventh", "bob")]
  /\ ~ (exists reader : string -> list Rescan.key,
          forall pulls : list pull_record,
            reader (get_pulls_summary_as_string pulls) = Rescan.key_of <$> pulls).
Proof.
  assert (get_pulls_summary_as_string Scenario.forged_a
          = get_pulls_summary_as_string Scenario.forged_b) as Hsame
    by (vm_compute; reflexivity).
  split_and!; [exact Hsame|reflexivity|reflexivity|].
  intros [reader Hreader].
  pose proof (Hreader Scenario.forged_a) as Ha.
  pose proof (Hreader Scenario.forged_b) as Hb.
  rewrite Hsame, Hb in Ha. discriminate Ha.
Qed.

(** C8, as the claim words it, fails: the two dates of the header are
    not the bounds of the 7-day window.  The window of the fetcher ends
    at the UTC clock and begins a week before it (lines 19-20); the
    dates of the header and of the file name are taken from the local
    clock, read again when the report is written (lines 187-188).  On a
    machine nine hours ahead of UTC, run at 20:10:05 UTC on 3 November
    2026, the window goes from 27 October to 3 November, as the fetcher
    prints its start, while the header reads [20261028-20261104] and
    the report is filed under 4 November; the report of 3 November is
    left as it was. *)
Lemma header_dates_are_local_not_the_window :
  let script := [Scenario.ok [Scenario.fresh; Scenario.recent];
                 Scenario.ok [Scenario.nobody; Scenario.old]] in
  let w := Scenario.world_east ["main.py"; "acme"; "widget"] script in
  let r := Scenario.run_main w in
  let since_time := clock_utc w - Py.timedelta_weeks 1 in
  let window_header :=
    "# AI Analysis of Pull Requests for acme/widget during "
    +:+ Clock.strftime_Ymd since_time +:+ "-" +:+ Clock.strftime_Ymd (clock_utc w) in
  run_status r = Finished
  /\ EvPrint "  -> 2 pull requests created since 2026-10-27T20:10:05Z" ∈ run_trace r
  /\ Clock.strftime_Ymd since_time = "20261027"
  /\ Clock.strftime_Ymd (clock_utc w) = "20261103"
  /\ files (run_disk r) !! "reports/acme_widget/report-20261104.md"
     = Some ("# AI Analysis of Pull Requests for acme/widget during 20261028-20261104"
             +:+ Py.nl +:+ Py.nl
             +:+ "- 3 PRs; caching is the main theme." +:+ Py.nl)
  /\ files (run_disk r) !! "reports/acme_widget/report-20261103.md" = Some "stale"
  /\ (forall (path content : string),
        files (run_disk r) !! path = Some content ->
        Py.startswith window_header content = false).
Proof.
  cbn zeta.
  assert (files (run_disk (Scenario.run_main
            (Scenario.world_east ["main.py"; "acme"; "widget"]
               [Scenario.ok [Scenario.fresh; Scenario.recent];
                Scenario.ok [Scenario.nobody; Scenario.old]])))
          = <[ "reports/acme_widget/report-20261104.md" :=
               "# AI Analysis of Pull Requests for acme/widget during 20261028-20261104"
               +:+ Py.nl +:+ Py.nl
               +:+ "- 3 PRs; caching is the main theme." +:+ Py.nl ]>
              {[ "reports/acme_widget/report-20261103.md" := "stale" ]}) as Hfiles
    by (vm_compute; reflexivity).
  rewrite Hfiles. split_and!.
  - vm_compute. reflexivity.
  - apply (list_elem_of_lookup_2 _ 4%nat). vm_compute. reflexivity.
  - vm_compute. reflexivity.
  - vm_compute. reflexivity.
  - by rewrite lookup_insert_eq.
  - by rewrite lookup_insert_ne.
  - intros path content [[_ <-]|[_ [_ <-]%lookup_singleton_Some]]%lookup_insert_Some;
      vm_compute; reflexivity.
Qed.

(** * Further properties of the program *)

(** ** What every run of the fetch loop keeps *)

Section FetchInvariants.

Variable fromisoformat : string -> option Z.
Variable isoformat : Z -> string.
Variables owner repo : string.
Variable GH_TOKEN : option string.
Variable since_time : Z.

Local Abbreviation loop :=
  (fetch_loop fromisoformat isoformat owner repo GH_TOKEN since_time).
Local Abbreviation ask := (asking owner repo GH_TOKEN).

(** The cases of one iteration, by the answer it receives. *)
Ltac by_answer g p r all :=
  let e := fresh "e" in
  let resp := fresh "resp" in
  let Hs := fresh "Hstatus" in
  let Hj := fresh "Hjson" in
  let Hscan := fresh "Hscan" in
  let Hlen := fresh "Hlen" in
  let Hleft := fresh "Hleft" in
  let pulls := fresh "pulls" in
  let recent := fresh "recent" in
  destruct g as [e|resp];
  [ rewrite ?fetch_loop_exception
  | destruct (decide (status_code resp = 200)) as [Hs|Hs];
    [ destruct (json resp) as [e|pulls] eqn:Hj;
      [ rewrite ?(fetch_loop_json_error _ _ _ _ _ _ resp e) by done
      | destruct (decide (pulls = [])) as [->|?];
        [ rewrite ?(fetch_loop_no_more_data _ _ _ _ _ _ resp) by done
        | destruct (scan_page fromisoformat since_time pulls) as [recent|] eqn:Hscan;
          [ rewrite ?(fetch_loop_page _ _ _ _ _ _ resp pulls recent) by done;
            destruct (length recent <? length pulls)%nat eqn:Hlen
          | ] ] ]
    | rewrite ?fetch_loop_failed by done;
      destruct (0 <? r - 1) eqn:Hleft ] ].

Lemma page_of_delivered resp pulls :
  status_code resp = 200 -> json resp = JsonPulls pulls ->
  page_of (Response resp) = pulls.
Proof. intros Hs Hj. cbn. by rewrite (proj2 (Z.eqb_eq _ _) Hs), Hj. Qed.

Lemma page_of_failed resp :
  status_code resp <> 200 -> page_of (Response resp) = [].
Proof. intros Hs. cbn. by rewrite (proj2 (Z.eqb_neq _ _) Hs). Qed.

(** The result is what was accumulated followed by the records of the
    first entries of the pages answered, or it is empty. *)
Lemma fetch_loop_prefix script :
  forall p r all result,
    (loop script p r all).2 = Returned result ->
    result = []
    \/ exists n, result = all ++ (record_of_item <$> take n (pages_of script)).
Proof.
  induction script as [|g script IH]; intros p r all result; [done|].
  unfold pages_of. cbn [fmap list_fmap concat]. fold (pages_of script).
  by_answer g p r all; rewrite ?emit_result; cbn [snd]; try done.
  - intros [= <-]. by left.
  - intros [= <-]. by left.
  - intros [= <-]. right. exists 0%nat. by rewrite take_0, app_nil_r.
  - intros [= <-]. right.
    destruct (scan_page_prefix _ _ _ _ Hscan) as (kept & rest & -> & -> & _).
    exists (length kept).
    rewrite (page_of_delivered resp (kept ++ rest)) by done.
    by rewrite <- app_assoc, take_app_length.
  - intros Hrun. apply Nat.ltb_ge in Hlen.
    destruct (scan_page_full _ _ _ _ Hscan) as [-> _];
      [pose proof (scan_page_length _ _ _ _ Hscan); lia|].
    destruct (IH _ _ _ _ Hrun) as [->|[k ->]]; [by left|right].
    exists (length pulls + k)%nat.
    rewrite (page_of_delivered resp pulls) by done.
    by rewrite take_app_add, fmap_app, app_assoc.
  - by rewrite (fetch_loop_page_raises _ _ _ _ _ _ resp pulls).
  - intros Hrun. rewrite page_of_failed by done. cbn [app]. eauto.
  - intros [= <-]. right. exists 0%nat. by rewrite take_0, app_nil_r.
Qed.

(** The pages asked for start at the current one and go up one at a
    time. *)
Lemma fetch_loop_climbs script :
  forall p r all,
    exists more, requested_pages (loop script p r all).1 = p :: more
                 /\ climbs (p :: more) = true.
Proof.
  induction script as [|g script IH]; intros p r all.
  - by exists [].
  - by_answer g p r all;
      rewrite ?emit_trace, ?requested_pages_app, ?requested_pages_ask;
      cbn [fst requested_pages omap app];
      try (by exists []).
    + destruct (IH (p + 1) 5 (all ++ recent)) as (more & -> & Hc).
      exists (p + 1 :: more). split; [done|].
      cbn [climbs] in *. rewrite Hc, Z.eqb_refl. by rewrite orb_true_r.
    + rewrite (surjective_pairing (loop _ _ _ _)).
      cbn [fetch_loop]. rewrite (proj2 (Z.eqb_eq _ _) Hstatus), Hjson.
      destruct pulls; [done|]. rewrite Hscan. by exists [].
    + destruct (IH p (r - 1) all) as (more & -> & Hc).
      exists (p :: more). split; [done|].
      cbn [climbs] in *. by rewrite Hc, Z.eqb_refl.
Qed.

(** A request is never sent right after another: a pause comes between. *)
Lemma fetch_loop_paced script :
  forall p r all, paced true (loop script p r all).1 = true.
Proof.
  induction script as [|g script IH]; intros p r all; [done|].
  by_answer g p r all; rewrite ?emit_trace; cbn [fst app paced andb];
    try done.
  - apply IH.
  - cbn [fetch_loop]. rewrite (proj2 (Z.eqb_eq _ _) Hstatus), Hjson.
    destruct pulls; [done|]. by rewrite Hscan.
  - apply IH.
Qed.

Lemma rate_limit_pause (n : nat) : (5 <= 8 + inject_Z (Z.of_nat n) / 100)%Q.
Proof. unfold Qle. cbn. lia. Qed.

Lemma fetch_loop_sleeps script :
  forall p r all, Forall (fun d => (5 <= d)%Q) (sleeps (loop script p r all).1).
Proof.
  induction script as [|g script IH]; intros p r all; [by constructor|].
  by_answer g p r all; rewrite ?emit_trace, ?sleeps_app, ?sleeps_ask;
    cbn [fst sleeps omap app]; try (by constructor).
  - constructor; [apply rate_limit_pause|apply IH].
  - cbn [fetch_loop]. rewrite (proj2 (Z.eqb_eq _ _) Hstatus), Hjson.
    destruct pulls; [done|]. rewrite Hscan. cbn. by constructor.
Qed.

Lemma fetch_loop_events script :
  forall p r all,
    Forall (fetch_event owner repo GH_TOKEN) (loop script p r all).1.
Proof.
  induction script as [|g script IH]; intros p r all.
  - cbn. by repeat constructor.
  - by_answer g p r all; rewrite ?emit_trace; cbn [fst]; unfold asking;
      repeat first [ apply Forall_app_2 | apply Forall_cons_2 | apply Forall_nil_2 ];
      try done.
    cbn [fetch_loop]. rewrite (proj2 (Z.eqb_eq _ _) Hstatus), Hjson.
    destruct pulls; [done|]. rewrite Hscan. cbn. by repeat constructor.
Qed.

(** A run that is still waiting after the answers [pre] has reached a
    state from which it goes on with the answers that follow. *)
Lemma fetch_loop_going pre :
  forall p r all,
    (loop pre p r all).2 = Pending ->
    exists p' r' all',
      forall rest, (loop (pre ++ rest) p r all).2 = (loop rest p' r' all').2.
Proof.
  induction pre as [|g pre IH]; intros p r all.
  - intros _. by exists p, r, all.
  - cbn [app].
    by_answer g p r all; rewrite ?emit_result; cbn [snd]; try done.
    + intros Hp. destruct (IH _ _ _ Hp) as (p' & r' & all' & Hgo).
      exists p', r', all'. intros rest.
      rewrite (fetch_loop_page _ _ _ _ _ _ resp pulls recent) by done.
      rewrite Hlen, !emit_result. apply Hgo.
    + by rewrite (fetch_loop_page_raises _ _ _ _ _ _ resp pulls).
    + intros Hp. destruct (IH _ _ _ Hp) as (p' & r' & all' & Hgo).
      exists p', r', all'. intros rest.
      rewrite fetch_loop_failed by done.
      rewrite Hleft, !emit_result. apply Hgo.
Qed.

(** An entry whose creation time cannot be read, met before any older
    entry, makes the scan raise. *)
Lemma scan_page_unreadable kept bad tail :
  Forall (fun pull => in_window fromisoformat since_time (item_created_at pull) = true) kept ->
  created_time fromisoformat (item_created_at bad) = None ->
  scan_page fromisoformat since_time (kept ++ bad :: tail) = None.
Proof.
  intros Hk Hbad. rewrite scan_page_app_inside by done.
  cbn [scan_page]. by rewrite Hbad.
Qed.

(** Five failed answers in a row with all attempts left end the fetch
    with what was accumulated. *)
Lemma fetch_loop_gives_up fails rest p all :
  Forall (fun g => failed g = true) fails -> length fails = 5%nat ->
  (loop (fails ++ rest) p 5 all).2 = Returned all.
Proof.
  intros Hf Hlen.
  destruct (decide (fails = [])) as [->|Hne]; [done|].
  destruct (exists_last Hne) as (init & g & ->).
  rewrite length_app in Hlen. cbn in Hlen.
  apply Forall_app in Hf as [Hinit Hg]. inversion Hg; subst.
  rewrite <- app_assoc. cbn [app].
  destruct (fetch_loop_retries fromisoformat isoformat owner repo GH_TOKEN
              since_time init (g :: rest) p 5 all Hinit) as (Hres & _); [lia|].
  rewrite Hres. replace (5 - Z.of_nat (length init)) with 1 by lia.
  by apply fetch_loop_last_attempt.
Qed.

End FetchInvariants.

(** ** The fetch against a paging service *)

Section PagedService.

Variable fromisoformat : string -> option Z.
Variable isoformat : Z -> string.
Variables owner repo : string.
Variable GH_TOKEN : option string.
Variable since_time : Z.

Local Abbreviation loop :=
  (fetch_loop fromisoformat isoformat owner repo GH_TOKEN since_time).
Local Abbreviation inside :=
  (fun pull => in_window fromisoformat since_time (item_created_at pull) = true).
Local Abbreviation outside :=
  (fun pull => out_of_window fromisoformat since_time (item_created_at pull) = true).

Lemma outside_not_inside pull :
  outside pull -> in_window fromisoformat since_time (item_created_at pull) = false.
Proof.
  unfold out_of_window, in_window.
  destruct (created_time _ _) as [t|]; [|done].
  intros Ht%Z.ltb_lt. by apply Z.leb_gt.
Qed.

Lemma filter_window kept rest :
  Forall inside kept -> Forall outside rest ->
  List.filter (fun pull => in_window fromisoformat since_time (item_created_at pull))
    (kept ++ rest) = kept.
Proof.
  intros Hk Hr. rewrite List.filter_app.
  replace (List.filter _ rest) with (@nil pull_item).
  - rewrite app_nil_r. induction Hk as [|pull kept Hp _ IH]; [done|].
    cbn [List.filter]. by rewrite Hp, IH.
  - induction Hr as [|pull rest Hp _ IH]; [done|].
    cbn [List.filter]. by rewrite (outside_not_inside pull Hp).
Qed.

(** Against a service that pages its entries, the loop returns what it
    had accumulated followed by the records of the in-window entries. *)
Lemma fetch_loop_serves (per_page : nat) entries script :
  (0 < per_page)%nat ->
  serves per_page entries script ->
  forall kept rest p all,
    entries = kept ++ rest -> Forall inside kept -> Forall outside rest ->
    (loop script p 5 all).2 = Returned (all ++ (record_of_item <$> kept)).
Proof.
  intros Hpos Hserves.
  induction Hserves as [fails last more Hf Hlen (resp & -> & Hs & Hj)
                       |entries fails g script Hne Hf Hlen (resp & -> & Hs & Hj) _ IH];
    intros kept rest p all Heq Hk Hr.
  - symmetry in Heq. apply app_eq_nil in Heq as [-> ->].
    destruct (fetch_loop_retries fromisoformat isoformat owner repo GH_TOKEN
                since_time fails (Response resp :: more) p 5 all Hf) as (-> & _); [lia|].
    rewrite (fetch_loop_no_more_data _ _ _ _ _ _ resp) by done.
    cbn. by rewrite app_nil_r.
  - subst entries.
    destruct (fetch_loop_retries fromisoformat isoformat owner repo GH_TOKEN
                since_time fails (Response resp :: script) p 5 all Hf) as (-> & _); [lia|].
    rewrite take_app in Hj.
    assert (Forall inside (take per_page kept)) as Hk1 by by apply Forall_take.
    destruct (take (per_page - length kept) rest) as [|old tail] eqn:Hrest1.
    + (* the page is all in the window: the next page is asked for *)
      rewrite app_nil_r in Hj.
      assert (take per_page kept <> []) as Hne1.
      { intros Hnil. apply Hne.
        destruct kept as [|x kept]; [|by destruct per_page; [lia|]].
        destruct rest as [|y rest]; [done|].
        cbn in Hrest1. by destruct per_page; [lia|]. }
      rewrite (fetch_loop_page _ _ _ _ _ _ resp (take per_page kept)
                 (record_of_item <$> take per_page kept))
        by (try done; by apply scan_page_all_inside).
      rewrite length_fmap, Nat.ltb_irrefl, !emit_result.
      rewrite (IH (drop per_page kept) (drop (per_page - length kept) rest));
        [|by rewrite drop_app|by apply Forall_drop|by apply Forall_drop].
      by rewrite <- app_assoc, <- fmap_app, take_drop.
    + (* the page crosses the boundary of the window: the fetch ends *)
      assert (length kept < per_page)%nat as Hshort.
      { destruct (decide (length kept < per_page)%nat); [done|].
        by replace (per_page - length kept)%nat with 0%nat in Hrest1 by lia. }
      rewrite take_ge in Hj by lia.
      assert (outside old) as Hold.
      { assert (Forall outside (old :: tail)) as Hot
          by (rewrite <- Hrest1; by apply Forall_take).
        by inversion Hot. }
      rewrite (fetch_loop_page _ _ _ _ _ _ resp (kept ++ old :: tail)
                 (record_of_item <$> kept));
        [|done|done|by destruct kept|by apply scan_page_stops_at_older].
      rewrite length_fmap, length_app. cbn [length].
      by rewrite (proj2 (Nat.ltb_lt _ _)) by lia.
Qed.

End PagedService.

(** ** The fetcher, end to end *)

(** X1.  Against a hosting service that holds its pull requests newest
    first and serves them a page at a time, each page after fewer than
    five failed answers, the fetcher returns exactly the pull requests
    created at or after [since], in the order of the service: none is
    lost at a page boundary and none is returned twice. *)
Theorem fetch_returns_the_window :
  forall (fromisoformat : string -> option Z) (isoformat : Z -> string)
         (owner repo : string) (GH_TOKEN : option string) (now_utc : Z)
         (per_page : nat) (entries : list pull_item) (ts : list Z)
         (script : list get_result),
    (0 < per_page)%nat ->
    serves per_page entries script ->
    page_times fromisoformat entries = Some ts ->
    descending ts = true ->
    (get_recent_pulls_of_repo fromisoformat isoformat owner repo GH_TOKEN
       now_utc script).2
    = Returned
        (record_of_item <$>
           List.filter (fun pull => in_window fromisoformat
                                      (now_utc - Py.timedelta_weeks 1)
                                      (item_created_at pull)) entries).
Proof.
  intros parse iso owner repo tok now per_page entries ts script Hpos Hserves Hts Hd.
  destruct (descending_page_split parse (now - Py.timedelta_weeks 1) entries ts Hts Hd)
    as (kept & rest & -> & Hk & Hr).
  rewrite filter_window by done.
  unfold get_recent_pulls_of_repo. rewrite emit_result.
  by rewrite (fetch_loop_serves parse iso owner repo tok _ per_page
                (kept ++ rest) script Hpos Hserves kept rest).
Qed.

Lemma fetch_returns_the_window_witness :
  (Scenario.fetch [Scenario.ok [Scenario.fresh; Scenario.recent];
                   Scenario.busy;
                   Scenario.ok [Scenario.nobody; Scenario.old];
                   Scenario.ok []]).2
  = Returned
      (record_of_item <$>
         List.filter (fun pull => in_window Clock.fromisoformat
                                    (Scenario.now - Py.timedelta_weeks 1)
                                    (item_created_at pull))
           [Scenario.fresh; Scenario.recent; Scenario.nobody; Scenario.old]).
Proof.
  apply (fetch_returns_the_window Clock.fromisoformat Clock.isoformat
           "acme" "widget" None Scenario.now 2
           [Scenario.fresh; Scenario.recent; Scenario.nobody; Scenario.old]
           [1793700000000000; 1793349000000000; 1793262600000000; 1790848800000000]).
  - lia.
  - apply (serves_page 2 _ [] (Scenario.ok [Scenario.fresh; Scenario.recent]));
      [done|constructor|cbn; lia|by eexists|].
    apply (serves_page 2 _ [Scenario.busy] (Scenario.ok [Scenario.nobody; Scenario.old]));
      [done|by repeat constructor|cbn; lia|by eexists|].
    apply (serves_end 2 [] (Scenario.ok []) []);
      [constructor|cbn; lia|by eexists].
  - vm_compute. reflexivity.
  - vm_compute. reflexivity.
Defined.

(** X2.  Whatever the hosting service answers, the records returned are
    those of the first entries of the pages it answered with, in their
    order: the fetcher does not reorder, repeat or invent entries, also
    when requests are retried.  So records have distinct numbers when
    the entries served have. *)
Theorem result_is_prefix_of_pages :
  forall (fromisoformat : string -> option Z) (isoformat : Z -> string)
         (owner repo : string) (GH_TOKEN : option string) (now_utc : Z)
         (script : list get_result) (result : list pull_record),
    (get_recent_pulls_of_repo fromisoformat isoformat owner repo GH_TOKEN
       now_utc script).2 = Returned result ->
    (exists n, result = record_of_item <$> take n (pages_of script))
    /\ (NoDup (item_number <$> pages_of script) -> NoDup (number <$> result)).
Proof.
  intros parse iso owner repo tok now script result.
  unfold get_recent_pulls_of_repo. rewrite emit_result. intros Hrun.
  assert (exists n, result = record_of_item <$> take n (pages_of script)) as [n ->].
  { destruct (fetch_loop_prefix parse iso owner repo tok _ script _ _ _ _ Hrun)
      as [->|[n ->]]; [by exists 0%nat|by exists n]. }
  split; [by exists n|].
  intros Hnodup. rewrite <- list_fmap_compose.
  change (number ∘ record_of_item) with item_number.
  rewrite <- (take_drop n (pages_of script)), fmap_app in Hnodup.
  by apply NoDup_app in Hnodup as [? _].
Qed.

Lemma result_is_prefix_of_pages_witness :
  (exists n,
     [record_of_item Scenario.fresh; record_of_item Scenario.recent;
      record_of_item Scenario.nobody]
     = record_of_item <$>
         take n (pages_of [Scenario.ok [Scenario.fresh; Scenario.recent];
                           Scenario.busy;
                           Scenario.ok [Scenario.nobody; Scenario.old]]))
  /\ NoDup (number <$> [record_of_item Scenario.fresh; record_of_item Scenario.recent;
                        record_of_item Scenario.nobody]).
Proof.
  destruct (result_is_prefix_of_pages Clock.fromisoformat Clock.isoformat
              "acme" "widget" None Scenario.now
              [Scenario.ok [Scenario.fresh; Scenario.recent];
               Scenario.busy;
               Scenario.ok [Scenario.nobody; Scenario.old]]
              [record_of_item Scenario.fresh; record_of_item Scenario.recent;
               record_of_item Scenario.nobody])
    as [Hprefix Hnodup].
  - vm_compute. reflexivity.
  - split; [exact Hprefix|]. apply Hnodup.
    apply (bool_decide_unpack _). vm_compute. exact I.
Defined.

(** X3.  The pages are asked for in order: the first request is for
    page 1, and each further request is for the same page (a retry) or
    for the next one; no page is skipped and none is asked for again
    once a later one was. *)
Theorem pages_are_requested_in_order :
  forall (fromisoformat : string -> option Z) (isoformat : Z -> string)
         (owner repo : string) (GH_TOKEN : option string) (now_utc : Z)
         (script : list get_result),
    exists more,
      requested_pages (get_recent_pulls_of_repo fromisoformat isoformat
                         owner repo GH_TOKEN now_utc script).1 = 1 :: more
      /\ climbs (1 :: more) = true.
Proof.
  intros parse iso owner repo tok now script.
  unfold get_recent_pulls_of_repo. rewrite emit_trace, requested_pages_app.
  destruct (fetch_loop_climbs parse iso owner repo tok (now - Py.timedelta_weeks 1)
              script 1 5 []) as (more & -> & Hc).
  exists more. by destruct tok.
Qed.

(** X4.  Requests are paced: no request is sent after another without
    a pause in between, and every pause lasts at least five seconds. *)
Theorem requests_are_paced :
  forall (fromisoformat : string -> option Z) (isoformat : Z -> string)
         (owner repo : string) (GH_TOKEN : option string) (now_utc : Z)
         (script : list get_result),
    let trace := (get_recent_pulls_of_repo fromisoformat isoformat
                    owner repo GH_TOKEN now_utc script).1 in
    paced true trace = true
    /\ Forall (fun d => (5 <= d)%Q) (sleeps trace).
Proof.
  intros parse iso owner repo tok now script. cbn zeta.
  unfold get_recent_pulls_of_repo. rewrite emit_trace, sleeps_app.
  pose proof (fetch_loop_paced parse iso owner repo tok
                (now - Py.timedelta_weeks 1) script 1 5 []) as Hp.
  pose proof (fetch_loop_sleeps parse iso owner repo tok
                (now - Py.timedelta_weeks 1) script 1 5 []) as Hs.
  by destruct tok.
Qed.

(** X5.  Every request, retries included, goes to the pull-request list
    of the repository given, and carries the token of the environment
    as [token <GH_TOKEN>] when there is one and no authorization
    otherwise; the fetcher never calls the text-generation service. *)
Theorem requests_carry_address_and_token :
  forall (fromisoformat : string -> option Z) (isoformat : Z -> string)
         (owner repo : string) (GH_TOKEN : option string) (now_utc : Z)
         (script : list get_result),
    Forall (fun e =>
              match e with
              | EvGet q =>
                  url q = "https://api.github.com/repos/" +:+ owner +:+ "/"
                          +:+ repo +:+ "/pulls"
                  /\ authorization q = (fun t => "token " +:+ t) <$> GH_TOKEN
              | EvGenerate _ _ => False
              | _ => True
              end)
      (get_recent_pulls_of_repo fromisoformat isoformat owner repo GH_TOKEN
         now_utc script).1.
Proof.
  intros parse iso owner repo tok now script.
  unfold get_recent_pulls_of_repo. rewrite emit_trace.
  apply Forall_app_2; [by destruct tok; repeat constructor|].
  eapply Forall_impl;
    [apply (fetch_loop_events parse iso owner repo tok (now - Py.timedelta_weeks 1))|].
  intros [line|q|d|m prompt]; cbn; try done. by intros ->.
Qed.

(** ** The program, end to end *)

Section ProgramRuns.

Variable fromisoformat : string -> option Z.
Variable isoformat : Z -> string.
Variable strftime_Ymd : Z -> string.

Local Abbreviation fetch := (get_recent_pulls_of_repo fromisoformat isoformat).
Local Abbreviation program := (main fromisoformat isoformat strftime_Ymd).

Lemma main_fetch_raises w owner repo trace e :
  parse_args (argv w) = (owner, repo) ->
  fetch owner repo (env_GH_TOKEN w) (clock_utc w) (github w) = (trace, Raised e) ->
  program w = {| run_trace := trace; run_status := Crashed e; run_disk := disk w |}.
Proof. intros Hargs Hfetch. unfold main. by rewrite Hargs, Hfetch. Qed.

(** The trace of the fetcher holds no call of the text-generation
    service. *)
Lemma fetch_never_generates owner repo tok now script :
  Forall (fun e => match e with EvGenerate _ _ => False | _ => True end)
    (fetch owner repo tok now script).1.
Proof.
  unfold get_recent_pulls_of_repo. rewrite emit_trace.
  apply Forall_app_2; [by destruct tok; repeat constructor|].
  eapply Forall_impl;
    [apply (fetch_loop_events fromisoformat isoformat owner repo tok)|].
  by intros [line|q|d|m prompt].
Qed.

Lemma generate_calls_app t1 t2 :
  generate_calls (t1 ++ t2) = (generate_calls t1 + generate_calls t2)%nat.
Proof. unfold generate_calls. by rewrite omap_app, length_app. Qed.

Lemma generate_calls_none t :
  Forall (fun e => match e with EvGenerate _ _ => False | _ => True end) t ->
  generate_calls t = 0%nat.
Proof.
  unfold generate_calls. induction 1 as [|e t He _ IH]; [done|].
  destruct e; cbn [omap list_omap] in *; done.
Qed.

End ProgramRuns.

(** The report step done again over the disk it left stops at the same
    point and leaves the same disk. *)
Lemma save_report_again (strftime_Ymd : Z -> string) (owner repo : string)
    (ai_analysis : option string) (w : world) :
  save_report strftime_Ymd owner repo ai_analysis
    (with_disk (save_report strftime_Ymd owner repo ai_analysis w).1 w)
  = save_report strftime_Ymd owner repo ai_analysis w.
Proof.
  pose proof (report_path_not_dir strftime_Ymd owner repo w) as [Hnot1 Hnot2].
  rewrite (save_report_cases strftime_Ymd owner repo ai_analysis w). cbn zeta.
  set (path := report_path strftime_Ymd owner repo w) in *.
  set (fs1 := with_dirs "reports" (disk w)).
  set (fs2 := with_dirs (report_dir owner repo) fs1).
  assert (forall d, d ∈ dir_chain "reports" -> d ∈ dirs fs1) as Hin1.
  { intros d Hd. unfold fs1, with_dirs. cbn [dirs].
    rewrite elem_of_union, elem_of_list_to_set. by left. }
  assert (forall d, d ∈ dir_chain "reports" -> d ∈ dirs fs2) as Hin12.
  { intros d Hd. unfold fs2, with_dirs at 1. cbn [dirs].
    rewrite elem_of_union. right. by apply Hin1. }
  assert (forall d, d ∈ dir_chain (report_dir owner repo) -> d ∈ dirs fs2) as Hin2.
  { intros d Hd. unfold fs2, with_dirs at 1. cbn [dirs].
    rewrite elem_of_union, elem_of_list_to_set. by left. }
  destruct (existsb (is_file (disk w)) (dir_chain "reports")) eqn:Hb1.
  { cbn [fst]. rewrite save_report_cases. cbn zeta. cbn [disk with_disk].
    by rewrite Hb1. }
  destruct (existsb (is_file (disk w)) (dir_chain (report_dir owner repo))) eqn:Hb2.
  { cbn [fst]. rewrite save_report_cases. cbn zeta. cbn [disk with_disk].
    change (existsb (is_file fs1)) with (existsb (is_file (disk w))).
    rewrite Hb1, Hb2. by rewrite with_dirs_absorbed. }
  destruct (bool_decide (path ∈ dirs fs2)) eqn:Hb3.
  { cbn [fst]. rewrite save_report_cases. cbn zeta. cbn [disk with_disk].
    change (existsb (is_file fs2)) with (existsb (is_file (disk w))).
    rewrite Hb1, Hb2.
    rewrite (with_dirs_absorbed "reports" fs2) by done.
    rewrite (with_dirs_absorbed (report_dir owner repo) fs2) by done.
    change (report_path strftime_Ymd owner repo (with_disk fs2 w)) with path.
    by rewrite Hb3. }
  assert (forall content,
            save_report strftime_Ymd owner repo ai_analysis
              (with_disk (write_file path content fs2) w)
            = match ai_analysis with
              | None =>
                  (write_file path (report_header strftime_Ymd owner repo w) fs2,
                   Some TypeError)
              | Some text =>
                  (write_file path (report_content strftime_Ymd owner repo text w) fs2,
                   None)
              end) as Hagain.
  { intros content. rewrite save_report_cases. cbn zeta. cbn [disk with_disk].
    rewrite !existsb_is_file_write by done.
    change (existsb (is_file fs2)) with (existsb (is_file (disk w))).
    rewrite Hb1, Hb2.
    rewrite (with_dirs_absorbed "reports" (write_file path content fs2)) by done.
    rewrite (with_dirs_absorbed (report_dir owner repo)
               (write_file path content fs2)) by done.
    change (report_path strftime_Ymd owner repo
              (with_disk (write_file path content fs2) w)) with path.
    change (dirs (write_file path content fs2)) with (dirs fs2).
    rewrite Hb3.
    change (report_header strftime_Ymd owner repo
              (with_disk (write_file path content fs2) w))
      with (report_header strftime_Ymd owner repo w).
    destruct ai_analysis as [text|]; by rewrite write_file_twice. }
  destruct ai_analysis as [text|]; cbn [fst]; apply Hagain.
Qed.

(** X6.  A pull request of the window whose creation time cannot be
    read ends the run with an exception nobody catches: the fetcher
    raises whatever it had accumulated, the program stops with a failure
    status, and nothing is written. *)
Theorem unreadable_timestamp_crashes :
  forall (fromisoformat : string -> option Z) (isoformat : Z -> string)
         (strftime_Ymd : Z -> string) (w : world) (owner repo : string)
         (pre : list get_result) (g : get_result) (rest : list get_result)
         (kept : list pull_item) (bad : pull_item) (tail : list pull_item),
    parse_args (argv w) = (owner, repo) ->
    github w = pre ++ g :: rest ->
    (get_recent_pulls_of_repo fromisoformat isoformat owner repo
       (env_GH_TOKEN w) (clock_utc w) pre).2 = Pending ->
    delivers g (kept ++ bad :: tail) ->
    Forall (fun pull => in_window fromisoformat
                          (clock_utc w - Py.timedelta_weeks 1)
                          (item_created_at pull) = true) kept ->
    created_time fromisoformat (item_created_at bad) = None ->
    (get_recent_pulls_of_repo fromisoformat isoformat owner repo
       (env_GH_TOKEN w) (clock_utc w) (github w)).2 = Raised ValueError
    /\ run_status (main fromisoformat isoformat strftime_Ymd w) = Crashed ValueError
    /\ exit_code (run_status (main fromisoformat isoformat strftime_Ymd w)) = Some 1
    /\ run_disk (main fromisoformat isoformat strftime_Ymd w) = disk w.
Proof.
  intros parse iso strf w owner repo pre g rest kept bad tail
    Hargs Hscript Hpre (resp & -> & Hs & Hj) Hk Hbad.
  assert ((get_recent_pulls_of_repo parse iso owner repo (env_GH_TOKEN w)
             (clock_utc w) (github w)).2 = Raised ValueError) as Hraise.
  { revert Hpre. rewrite Hscript. unfold get_recent_pulls_of_repo.
    rewrite !emit_result. intros Hpre.
    destruct (fetch_loop_going parse iso owner repo (env_GH_TOKEN w) _ pre _ _ _ Hpre)
      as (p' & r' & all' & ->).
    apply (fetch_loop_page_raises _ _ _ _ _ _ resp (kept ++ bad :: tail)); [done..|].
    by apply scan_page_unreadable. }
  destruct (get_recent_pulls_of_repo parse iso owner repo (env_GH_TOKEN w)
              (clock_utc w) (github w)) as [trace out] eqn:Hrun.
  cbn in Hraise. subst out.
  by rewrite (main_fetch_raises parse iso strf w owner repo trace ValueError).
Qed.

Lemma unreadable_timestamp_crashes_witness :
  let w := Scenario.world_of ["main.py"; "acme"; "widget"]
             ([Scenario.ok [Scenario.fresh; Scenario.recent]]
              ++ Scenario.ok ([Scenario.nobody] ++ Scenario.unreadable :: [Scenario.old])
                 :: []) in
  (Scenario.fetch (github w)).2 = Raised ValueError
  /\ run_status (Scenario.run_main w) = Crashed ValueError
  /\ exit_code (run_status (Scenario.run_main w)) = Some 1
  /\ run_disk (Scenario.run_main w) = Scenario.used_disk.
Proof.
  apply (unreadable_timestamp_crashes Clock.fromisoformat Clock.isoformat
           Clock.strftime_Ymd
           (Scenario.world_of ["main.py"; "acme"; "widget"]
              ([Scenario.ok [Scenario.fresh; Scenario.recent]]
               ++ Scenario.ok ([Scenario.nobody] ++ Scenario.unreadable :: [Scenario.old])
                  :: []))
           "acme" "widget"
           [Scenario.ok [Scenario.fresh; Scenario.recent]]
           (Scenario.ok ([Scenario.nobody] ++ Scenario.unreadable :: [Scenario.old]))
           [] [Scenario.nobody] Scenario.unreadable [Scenario.old]).
  - reflexivity.
  - reflexivity.
  - vm_compute. reflexivity.
  - by eexists.
  - repeat constructor.
  - reflexivity.
Defined.

(** X7.  A fetch that fails looks like a fetch that found nothing.
    When the hosting service cannot be reached or sends a body that does
    not decode, at any page, or when the first page fails five times in a
    row, the program prints [No recent pull requests found.] as its last
    line, ends with exit status 0 and writes nothing, whatever earlier
    pages had delivered. *)
Theorem failed_fetch_ends_as_nothing_found :
  forall (fromisoformat : string -> option Z) (isoformat : Z -> string)
         (strftime_Ymd : Z -> string) (w : world) (owner repo : string),
    parse_args (argv w) = (owner, repo) ->
    (exists pre bad rest,
       github w = pre ++ bad :: rest /\ aborting bad = true
       /\ (get_recent_pulls_of_repo fromisoformat isoformat owner repo
             (env_GH_TOKEN w) (clock_utc w) pre).2 = Pending)
    \/ (exists fails rest,
          github w = fails ++ rest /\ length fails = 5%nat
          /\ Forall (fun g => failed g = true) fails) ->
    let r := main fromisoformat isoformat strftime_Ymd w in
    last (run_trace r) = Some (EvPrint "No recent pull requests found.")
    /\ run_status r = Exit 0
    /\ exit_code (run_status r) = Some 0
    /\ run_disk r = disk w.
Proof.
  intros parse iso strf w owner repo Hargs Hfail. cbn zeta.
  assert ((get_recent_pulls_of_repo parse iso owner repo (env_GH_TOKEN w)
             (clock_utc w) (github w)).2 = Returned []) as Hnone.
  { unfold get_recent_pulls_of_repo in *. rewrite emit_result.
    destruct Hfail as [(pre & bad & rest & -> & Hbad & Hpre)
                      |(fails & rest & -> & Hlen & Hf)].
    - rewrite emit_result in Hpre.
      by apply (fetch_loop_reaches parse iso owner repo (env_GH_TOKEN w)).
    - by apply fetch_loop_gives_up. }
  destruct (get_recent_pulls_of_repo parse iso owner repo (env_GH_TOKEN w)
              (clock_utc w) (github w)) as [trace out] eqn:Hrun.
  cbn in Hnone. subst out.
  rewrite (main_nothing_found parse iso strf w owner repo trace) by done.
  cbn [run_trace run_status run_disk exit_code]. by rewrite last_snoc.
Qed.

Lemma failed_fetch_ends_as_nothing_found_witness :
  (let r := Scenario.run_main
              (Scenario.world_of ["main.py"; "acme"; "widget"]
                 [Scenario.ok [Scenario.fresh; Scenario.recent];
                  Scenario.unreachable]) in
   last (run_trace r) = Some (EvPrint "No recent pull requests found.")
   /\ run_status r = Exit 0
   /\ exit_code (run_status r) = Some 0
   /\ run_disk r = Scenario.used_disk)
  /\ (let r := Scenario.run_main
                 (Scenario.world_of ["main.py"; "acme"; "widget"]
                    (replicate 5 Scenario.busy
                     ++ [Scenario.ok [Scenario.fresh; Scenario.old]])) in
      last (run_trace r) = Some (EvPrint "No recent pull requests found.")
      /\ run_status r = Exit 0
      /\ exit_code (run_status r) = Some 0
      /\ run_disk r = Scenario.used_disk).
Proof.
  split.
  - apply (failed_fetch_ends_as_nothing_found Clock.fromisoformat Clock.isoformat
             Clock.strftime_Ymd
             (Scenario.world_of ["main.py"; "acme"; "widget"]
                [Scenario.ok [Scenario.fresh; Scenario.recent];
                 Scenario.unreachable])
             "acme" "widget"); [reflexivity|].
    left. exists [Scenario.ok [Scenario.fresh; Scenario.recent]],
            Scenario.unreachable, [].
    split; [reflexivity|]. split; [reflexivity|]. vm_compute. reflexivity.
  - apply (failed_fetch_ends_as_nothing_found Clock.fromisoformat Clock.isoformat
             Clock.strftime_Ymd
             (Scenario.world_of ["main.py"; "acme"; "widget"]
                (replicate 5 Scenario.busy
                 ++ [Scenario.ok [Scenario.fresh; Scenario.old]]))
             "acme" "widget"); [reflexivity|].
    right. exists (replicate 5 Scenario.busy),
             [Scenario.ok [Scenario.fresh; Scenario.old]].
    split; [reflexivity|]. split; [reflexivity|]. repeat constructor.
Defined.



(** X9.  The text-generation service is called at most once in a run,
    and only after the fetcher returned at least one pull request; the
    call names the model [gemini-3-flash-preview] and its prompt is
    built from the digest of exactly the records fetched. *)
Theorem model_is_called_at_most_once :
  forall (fromisoformat : string -> option Z) (isoformat : Z -> string)
         (strftime_Ymd : Z -> string) (w : world),
    let owner := (parse_args (argv w)).1 in
    let repo := (parse_args (argv w)).2 in
    let fetched := (get_recent_pulls_of_repo fromisoformat isoformat owner repo
                      (env_GH_TOKEN w) (clock_utc w) (github w)).2 in
    let trace := run_trace (main fromisoformat isoformat strftime_Ymd w) in
    (generate_calls trace <= 1)%nat
    /\ forall m q,
         EvGenerate m q ∈ trace ->
         m = "gemini-3-flash-preview"
         /\ exists pulls,
              fetched = Returned pulls /\ pulls <> []
              /\ q = ai_prompt (get_pulls_summary_as_string pulls) owner repo.
Proof.
  intros parse iso strf w. cbn zeta. unfold main.
  destruct (parse_args (argv w)) as [owner repo]. cbn [fst snd].
  pose proof (fetch_never_generates parse iso owner repo (env_GH_TOKEN w)
                (clock_utc w) (github w)) as Hfetch.
  destruct (get_recent_pulls_of_repo _ _ _ _ _ _ _) as [t1 out].
  cbn [fst snd] in *.
  pose proof (generate_calls_none t1 Hfetch) as Hzero.
  assert (forall m q, EvGenerate m q ∈ t1 -> False) as Hnot.
  { intros m q Hin. by apply (proj1 (Forall_forall _ _) Hfetch) in Hin. }
  assert (forall m q t (P : Prop),
            (EvGenerate m q ∈ t -> P) -> EvGenerate m q ∈ t1 ++ t -> P) as Hrest.
  { intros m q t P HP [Hin|Hin]%elem_of_app; [by destruct (Hnot m q)|by apply HP]. }
  destruct out as [[|pull pulls]|e|]; cbn [run_trace].
  - rewrite generate_calls_app, Hzero. split; [cbn; lia|].
    intros m q. apply Hrest. by intros Hin%list_elem_of_singleton.
  - unfold summarize_prs_by_ai. destruct (client_ok (genai w)).
    + cbn zeta. unfold emit.
      destruct (generate_content _ _ _) as [answer|]; cbn [fst snd];
        [destruct (save_report _ _ _ _ _) as [fs [e|]]|]; cbn [run_trace];
        rewrite <- ?app_assoc, ?generate_calls_app, Hzero;
        (split; [cbn; lia|]);
        intros m q; apply Hrest; cbn [app];
        rewrite ?elem_of_cons, ?elem_of_nil;
        intros Hin; repeat (destruct Hin as [Hin|Hin]; try done);
        injection Hin as -> ->; (split; [done|]); by eexists.
    + cbn [fst snd run_trace]. rewrite <- ?app_assoc, ?generate_calls_app, Hzero.
      split; [cbn; lia|].
      intros m q. apply Hrest. cbn [app]. rewrite ?elem_of_cons, ?elem_of_nil.
      intros Hin; repeat (destruct Hin as [Hin|Hin]; try done).
  - split; [lia|]. intros m q Hin. by destruct (Hnot m q).
  - split; [lia|]. intros m q Hin. by destruct (Hnot m q).
Qed.

Lemma model_is_called_at_most_once_witness :
  let w := Scenario.world_of ["main.py"; "acme"; "widget"]
             [Scenario.ok [Scenario.fresh; Scenario.old]] in
  "gemini-3-flash-preview" = "gemini-3-flash-preview"
  /\ exists pulls,
       (Scenario.fetch (github w)).2 = Returned pulls /\ pulls <> []
       /\ ai_prompt (get_pulls_summary_as_string [record_of_item Scenario.fresh])
            "acme" "widget"
          = ai_prompt (get_pulls_summary_as_string pulls) "acme" "widget".
Proof.
  apply (proj2 (model_is_called_at_most_once Clock.fromisoformat Clock.isoformat
                  Clock.strftime_Ymd
                  (Scenario.world_of ["main.py"; "acme"; "widget"]
                     [Scenario.ok [Scenario.fresh; Scenario.old]]))
           "gemini-3-flash-preview"
           (ai_prompt (get_pulls_summary_as_string [record_of_item Scenario.fresh])
              "acme" "widget")).
  apply (list_elem_of_lookup_2 _ 7%nat). vm_compute. reflexivity.
Defined.

(** X10.  Running the program again in the same circumstances, over
    the disk the first run left, ends the same way and leaves the disk
    as the first run did: the report of the day is written over, not
    added to, and no second file appears. *)
Theorem rerun_is_idempotent :
  forall (fromisoformat : string -> option Z) (isoformat : Z -> string)
         (strftime_Ymd : Z -> string) (w : world),
    let first := main fromisoformat isoformat strftime_Ymd w in
    let again := main fromisoformat isoformat strftime_Ymd
                   (with_disk (run_disk first) w) in
    run_disk again = run_disk first
    /\ run_status again = run_status first
    /\ run_trace again = run_trace first.
Proof.
  intros parse iso strf w. cbn zeta. unfold main.
  change (argv (with_disk ?fs w)) with (argv w).
  change (env_GH_TOKEN (with_disk ?fs w)) with (env_GH_TOKEN w).
  change (clock_utc (with_disk ?fs w)) with (clock_utc w).
  change (github (with_disk ?fs w)) with (github w).
  change (genai (with_disk ?fs w)) with (genai w).
  change (disk (with_disk ?fs w)) with fs.
  destruct (parse_args (argv w)) as [owner repo].
  destruct (get_recent_pulls_of_repo _ _ _ _ _ _ _) as [t1 [[|pull pulls]|e|]];
    try done.
  destruct (summarize_prs_by_ai _ _ _ _) as [t3 [answer|e|]]; try done.
  pose proof (save_report_again strf owner repo answer w) as Hagain.
  destruct (save_report strf owner repo answer w) as [fs fault] eqn:Hsave.
  cbn [fst] in Hagain.
  destruct fault as [e|]; cbn [run_disk]; rewrite Hagain; done.
Qed.

(** ** More on the digest *)

(** X11.  Whatever the records hold, the digest begins with an empty
    line followed by the line [There are <n> pull requests recently:],
    where [n], read back as a number, is the number of records. *)
Theorem digest_count_line :
  forall pulls : list pull_record,
    exists lines,
      Text.split_lines (get_pulls_summary_as_string pulls)
      = EmptyString
        :: ("There are " +:+ Py.str_int (Z.of_nat (length pulls))
            +:+ " pull requests recently:")
        :: lines
      /\ Rescan.rescan_count ("There are " +:+ Py.str_int (Z.of_nat (length pulls))
                              +:+ " pull requests recently:")
         = Some (length pulls).
Proof.
  intros pulls. unfold get_pulls_summary_as_string, summary_lines.
  rewrite split_lines_join by done. cbn [fmap list_fmap concat].
  change (Text.split_lines (Py.nl +:+ ?s)) with (EmptyString :: Text.split_lines s).
  rewrite split_lines_single by (by rewrite !single_line_app, str_int_single_line).
  eexists. split; [reflexivity|apply rescan_count_reads].
Qed.

(** X13.  Two lists of records whose entries are framed have the same
    digest only if they agree, record by record, on the number, the
    title and the author. *)
Theorem framed_digests_are_distinct :
  forall a b : list pull_record,
    Rescan.all_framed 1 a = true ->
    Rescan.all_framed 1 b = true ->
    get_pulls_summary_as_string a = get_pulls_summary_as_string b ->
    Rescan.key_of <$> a = Rescan.key_of <$> b.
Proof.
  intros a b Ha Hb Heq.
  pose proof (rescan_reads a Ha) as Hra. pose proof (rescan_reads b Hb) as Hrb.
  rewrite Heq, Hrb in Hra. by injection Hra.
Qed.

Lemma framed_digests_are_distinct_witness :
  let a := [Scenario.labelled ["a, b"]; Scenario.plain 8 "Eighth" "carol" "z"] in
  let b := [Scenario.labelled ["a"; "b"]; Scenario.plain 8 "Eighth" "carol" "z"] in
  a <> b
  /\ get_pulls_summary_as_string a = get_pulls_summary_as_string b
  /\ Rescan.key_of <$> a = Rescan.key_of <$> b.
Proof.
  cbn zeta. split_and!.
  - intros Heq. apply (f_equal (fun l => labels <$> l)) in Heq. discriminate Heq.
  - vm_compute. reflexivity.
  - apply (framed_digests_are_distinct
             [Scenario.labelled ["a, b"]; Scenario.plain 8 "Eighth" "carol" "z"]
             [Scenario.labelled ["a"; "b"]; Scenario.plain 8 "Eighth" "carol" "z"]).
    + vm_compute. reflexivity.
    + vm_compute. reflexivity.
    + vm_compute. reflexivity.
Defined.

(** ** Timestamps *)

Lemma replace_zulu_other (new : string) (c : ascii) (s : string) :
  Ascii.eqb c "Z" = false ->
  Py.replace "Z" new (String c s) = String c (Py.replace "Z" new s).
Proof.
  intros Hc. unfold Py.replace. cbn [Py.replace_from Py.startswith].
  by rewrite Ascii.eqb_sym, Hc.
Qed.

Lemma replace_zulu_letter (new s : string) :
  Py.replace "Z" new (String "Z" s) = new +:+ Py.replace "Z" new s.
Proof. reflexivity. Qed.

Lemma replace_zulu_free (new s : string) :
  no_zulu s = true -> Py.replace "Z" new s = s.
Proof.
  unfold no_zulu. induction s as [|c s IH]; [done|]. cbn [Text.all_chars].
  intros [Hc Hs]%andb_prop. apply negb_true_iff in Hc.
  by rewrite replace_zulu_other, IH.
Qed.

Lemma replace_zulu_app (new a b : string) :
  Py.replace "Z" new (a +:+ b) = Py.replace "Z" new a +:+ Py.replace "Z" new b.
Proof.
  induction a as [|c a IH]; [done|]. rewrite append_cons.
  destruct (Ascii.eqb c "Z") eqn:Hc.
  - apply Ascii.eqb_eq in Hc as ->.
    by rewrite !replace_zulu_letter, IH, append_assoc.
  - by rewrite !replace_zulu_other, IH by done.
Qed.

(** X12.  A creation time written with the suffix [Z] is read as the
    same text with the offset [+00:00], that is as UTC, and a text
    without the letter [Z] is read as it is. *)
Theorem zulu_timestamp_is_utc :
  forall (fromisoformat : string -> option Z) (s : string),
    no_zulu s = true ->
    created_time fromisoformat (s +:+ "Z") = fromisoformat (s +:+ "+00:00")
    /\ created_time fromisoformat s = fromisoformat s.
Proof.
  intros parse s Hs. unfold created_time.
  rewrite replace_zulu_app, !(replace_zulu_free _ s) by done.
  by change (Py.replace "Z" "+00:00" "Z") with "+00:00".
Qed.

Lemma zulu_timestamp_is_utc_witness :
  created_time Clock.fromisoformat ("2026-11-03T10:00:00" +:+ "Z")
  = Clock.fromisoformat ("2026-11-03T10:00:00" +:+ "+00:00")
  /\ created_time Clock.fromisoformat "2026-11-03T10:00:00"
     = Clock.fromisoformat "2026-11-03T10:00:00".
Proof.
  apply (zulu_timestamp_is_utc Clock.fromisoformat "2026-11-03T10:00:00").
  reflexivity.
Defined.

Lemma startswith_text_drop (p s : string) :
  Py.startswith p s = true -> s = p +:+ text_drop (String.length p) s.
Proof.
  revert s. induction p as [|a p IH]; intros s; [done|].
  destruct s as [|b s]; [done|]. cbn [Py.startswith String.length text_drop].
  destruct (Ascii.eqb_spec a b) as [->|]; [|done].
  intros Hp. rewrite append_cons. f_equal. by apply IH.
Qed.

(** Putting [+00:00] back for [Z] undoes putting [Z] for [+00:00], on a
    text without the letter [Z]. *)
Lemma replace_zulu_undoes (s : string) :
  no_zulu s = true ->
  forall k, Py.replace "Z" "+00:00" (Py.replace_from k "+00:00" "Z" s) = text_drop k s.
Proof.
  unfold no_zulu. induction s as [|c s IH]; intros Hs k; [by destruct k|].
  cbn [Text.all_chars] in Hs. apply andb_prop in Hs as [Hc Hs].
  apply negb_true_iff in Hc.
  destruct k as [|k]; cbn [Py.replace_from text_drop]; [|by apply IH].
  destruct (Py.startswith "+00:00" (String c s)) eqn:Hstart.
  - change ("Z" +:+ ?x) with (String "Z" x).
    rewrite replace_zulu_letter. cbn [String.length Nat.sub].
    rewrite IH by done. symmetry.
    exact (startswith_text_drop "+00:00" (String c s) Hstart).
  - by rewrite replace_zulu_other, (IH Hs 0%nat).
Qed.

(** X14.  The instant [since] as the progress lines print it (with
    [Z] for the offset) is read back, the way creation times are read,
    as [since] itself, and a pull request created at that very instant
    is in the window: the bound is inclusive. *)
Theorem since_reads_back :
  forall (fromisoformat : string -> option Z) (isoformat : Z -> string)
         (since_time : Z),
    no_zulu (isoformat since_time) = true ->
    fromisoformat (isoformat since_time) = Some since_time ->
    created_time fromisoformat (since_iso isoformat since_time) = Some since_time
    /\ in_window fromisoformat since_time (since_iso isoformat since_time) = true.
Proof.
  intros parse iso since Hfree Hback.
  assert (created_time parse (since_iso iso since) = Some since) as Hread.
  { unfold created_time, since_iso, Py.replace at 2.
    by rewrite replace_zulu_undoes. }
  split; [done|]. unfold in_window. rewrite Hread. apply Z.leb_refl.
Qed.

Lemma since_reads_back_witness :
  created_time Clock.fromisoformat
    (since_iso Clock.isoformat (Scenario.now - Py.timedelta_weeks 1))
  = Some (Scenario.now - Py.timedelta_weeks 1)
  /\ in_window Clock.fromisoformat (Scenario.now - Py.timedelta_weeks 1)
       (since_iso Clock.isoformat (Scenario.now - Py.timedelta_weeks 1)) = true.
Proof.
  apply (since_reads_back Clock.fromisoformat Clock.isoformat
           (Scenario.now - Py.timedelta_weeks 1)).
  - vm_compute. reflexivity.
  - vm_compute. reflexivity.
Defined.

(** ** Entries without description or labels *)

(** X15.  A page entry whose [body] is JSON [null] is kept with the
    body [None], and its description line in the digest reads
    [None...]; an entry without [labels] key, like one with an empty
    list of labels, is kept with no labels, and its labels line reads
    [None]. *)
Theorem null_body_prints_none :
  forall (fromisoformat : string -> option Z) (since : Z)
         (pulls : list pull_item) (recent_pulls : list pull_record)
         (i : nat) (r : pull_record),
    scan_page fromisoformat since pulls = Some recent_pulls ->
    recent_pulls !! i = Some r ->
    exists pull,
      pulls !! i = Some pull
      /\ (item_body pull = BodyNull ->
          body r = None
          /\ summary_lines recent_pulls !! (5 + 6 * i)%nat
             = Some "   Description: None...")
      /\ (item_labels pull = None \/ item_labels pull = Some [] ->
          labels r = []
          /\ summary_lines recent_pulls !! (4 + 6 * i)%nat
             = Some "   Labels: None").
Proof.
  intros parse since pulls recent i r Hscan Hi.
  destruct (entries_from_block recent 1 i r Hi) as (pre & post & Hlines & Hlen).
  destruct (scan_page_prefix _ _ _ _ Hscan) as (kept & rest & -> & -> & _).
  rewrite list_lookup_fmap in Hi.
  destruct (kept !! i) as [pull|] eqn:Hk; [|done].
  injection Hi as <-. exists pull.
  split; [by apply lookup_app_l_Some|].
  unfold summary_lines. rewrite Hlines.
  replace (5 + 6 * i)%nat with (S (length pre + 4)) by lia.
  replace (4 + 6 * i)%nat with (S (length pre + 3)) by lia.
  rewrite !lookup_cons. split.
  - intros Hbody. rewrite lookup_app_r by lia.
    replace (length pre + 4 - length pre)%nat with 4%nat by lia.
    cbn. by rewrite Hbody.
  - intros Hlabels. rewrite lookup_app_r by lia.
    replace (length pre + 3 - length pre)%nat with 3%nat by lia.
    cbn. by destruct Hlabels as [-> | ->].
Qed.

Lemma null_body_prints_none_witness :
  exists pull,
    [Scenario.fresh; Scenario.nobody; Scenario.old] !! 1%nat = Some pull
    /\ (item_body pull = BodyNull ->
        body (record_of_item Scenario.nobody) = None
        /\ summary_lines [record_of_item Scenario.fresh; record_of_item Scenario.nobody]
           !! (5 + 6 * 1)%nat
           = Some "   Description: None...")
    /\ (item_labels pull = None \/ item_labels pull = Some [] ->
        labels (record_of_item Scenario.nobody) = []
        /\ summary_lines [record_of_item Scenario.fresh; record_of_item Scenario.nobody]
           !! (4 + 6 * 1)%nat
           = Some "   Labels: None").
Proof.
  apply (null_body_prints_none Clock.fromisoformat
           (Scenario.now - Py.timedelta_weeks 1)
           [Scenario.fresh; Scenario.nobody; Scenario.old]
           [record_of_item Scenario.fresh; record_of_item Scenario.nobody]
           1%nat (record_of_item Scenario.nobody)).
  - vm_compute. reflexivity.
  - reflexivity.
Defined.
